(** * memoryagent: the chat orchestrator of [main.py]

    A shallow embedding of the FastAPI handler [handle_chat] and of the
    request model [ChatRequest].  The handler talks to two remote services
    (the Mem0 memory store through [requests], the Groq inference API through
    its client); their answers are the fields of a [World], and every outbound
    call and every [print] is recorded, in program order, in a trace. *)

From Stdlib Require Import String Ascii List ZArith Bool Lia.
From Stdlib Require Import Floats DecimalString.
Import ListNotations.
Open Scope string_scope.

Set Implicit Arguments.
Set Warnings "-register-all,-inexact-float".

(** ** Python values *)

(** What [response.json()] can return, and what a request body decodes to. *)
Inductive json : Type :=
| JNull
| JBool (b : bool)
| JInt (n : Z)
| JFloat (x : float)
| JStr (s : string)
| JArr (items : list json)
| JObj (fields : list (string * json)).

(** A [dict] with string keys, as the list of its items; a key occurs once
    in a dict, and a lookup stops at the first item that has the key. *)
Definition dict (V : Type) : Type := list (string * V).

Fixpoint dict_get {V : Type} (k : string) (d : dict V) : option V :=
  match d with
  | [] => None
  | (k', v) :: rest => if String.eqb k k' then Some v else dict_get k rest
  end.

(** [bool(v)], the test of [if memories_data:]. *)
Definition truthy (v : json) : bool :=
  match v with
  | JNull => false
  | JBool b => b
  | JInt n => negb (n =? 0)%Z
  | JFloat x => negb (x =? 0)%float
  | JStr s => negb (String.eqb s "")
  | JArr items => match items with [] => false | _ :: _ => true end
  | JObj fields => match fields with [] => false | _ :: _ => true end
  end.

(** [str(n)] for an [int]. *)
Definition decimal (n : Z) : string := NilZero.string_of_int (Z.to_int n).

(** ** Exceptions *)

Inductive exn : Type :=
| RequestException (msg : string)
    (* requests.exceptions.RequestException and its subclasses
       (ConnectionError, Timeout, HTTPError, ...) *)
| HTTPException (status_code : Z) (detail : string)      (* fastapi *)
| KeyError (key : string)
| TypeError (msg : string)
| AttributeError (msg : string)
| IndexError (msg : string)
| OtherException (msg : string).  (* any other subclass of Exception *)

Definition is_RequestException (e : exn) : bool :=
  match e with RequestException _ => true | _ => false end.

(** [except Exception] takes every exception of the model: what is raised
    here is raised by a call or by an operation on its result, never a
    [KeyboardInterrupt] or a [SystemExit]. *)
Definition is_Exception (e : exn) : bool := true.

(** [repr(s)] for a [str].  A character of a [string] stands for one code
    point below 256; the printable ones are those of [str.isprintable]. *)
Definition backslash : ascii := ascii_of_nat 92.
Definition single_quote : ascii := ascii_of_nat 39.
Definition double_quote : ascii := ascii_of_nat 34.

Definition hex_digit (n : nat) : ascii :=
  nth n (list_ascii_of_string "0123456789abcdef") "0"%char.

Definition hex2 (n : nat) : string :=
  String (hex_digit (n / 16)) (String (hex_digit (n mod 16)) EmptyString).

Definition printable (n : nat) : bool :=
  ((32 <=? n)%nat && (n <? 127)%nat)
  || ((161 <=? n)%nat && negb (n =? 173)%nat).

Definition repr_char (quote c : ascii) : string :=
  let n := nat_of_ascii c in
  if Ascii.eqb c backslash || Ascii.eqb c quote
  then String backslash (String c EmptyString)
  else if (n =? 9)%nat then String backslash "t"
  else if (n =? 10)%nat then String backslash "n"
  else if (n =? 13)%nat then String backslash "r"
  else if printable n then String c EmptyString
  else String backslash (String "x"%char (hex2 n)).

Fixpoint contains (c : ascii) (s : string) : bool :=
  match s with
  | EmptyString => false
  | String c' rest => Ascii.eqb c c' || contains c rest
  end.

Definition py_repr (s : string) : string :=
  let quote :=
    if contains single_quote s && negb (contains double_quote s)
    then double_quote else single_quote in
  String quote
    (String.concat "" (map (repr_char quote) (list_ascii_of_string s))
     ++ String quote EmptyString).

(** [str(e)], as the f-strings of the handlers print it; the text of a
    [KeyError] is the [repr] of its key. *)
Definition exn_str (e : exn) : string :=
  match e with
  | RequestException msg => msg
  | HTTPException code detail => decimal code ++ ": " ++ detail
  | KeyError key => py_repr key
  | TypeError msg => msg
  | AttributeError msg => msg
  | IndexError msg => msg
  | OtherException msg => msg
  end.

(** [f"{x}"] for a value that is a [str] or [None]. *)
Definition format_opt (x : option string) : string :=
  match x with Some s => s | None => "None" end.

Definition json_of_opt (x : option string) : json :=
  match x with Some s => JStr s | None => JNull end.

(** ** The outside world *)

(** A [requests.Response]: what the handler reads of it.  [resp_json] is the
    outcome of [response.json()]: the decoded body, or the exception the
    decoder raises. *)
Record Response : Type := {
  resp_status_code : Z;
  resp_reason : string;
  resp_url : string;
  resp_json : exn + json
}.

Record Message : Type := { role : string; content : string }.

(** The part of Groq's [ChatCompletion] that the handler reads. *)
Record ChatCompletionMessage : Type := { msg_content : option string }.
Record Choice : Type := { choice_message : ChatCompletionMessage }.
Record ChatCompletion : Type := { choices : list Choice }.

(** The answers of the two services.  Each call returns its result or
    raises an exception of any class: a call through [requests] raises a
    [RequestException] on a network error, and can raise others (a
    [UnicodeEncodeError] on a header that cannot be encoded, for one). *)
Record World : Type := {
  requests_get :
    string -> dict string -> dict string -> exn + Response;
  groq_create :
    list Message -> string -> float -> exn + ChatCompletion;
  requests_post :
    string -> dict string -> dict string -> exn + Response
}.

(** ** Effects: a trace of outbound calls and printed lines, and exceptions *)

Inductive event : Type :=
| Print (line : string)
| RequestsGet (url : string) (headers params : dict string)
| GroqCreate (messages : list Message) (model : string) (temperature : float)
| RequestsPost (url : string) (headers payload : dict string).

Definition trace : Type := list event.

(** A computation raises or returns, and has logged what it did until then. *)
Definition M (A : Type) : Type := (exn + A) * trace.

Definition ret {A : Type} (a : A) : M A := (inr a, []).

Definition raise {A : Type} (e : exn) : M A := (inl e, []).

Definition bind {A B : Type} (m : M A) (k : A -> M B) : M B :=
  match m with
  | (inl e, t) => (inl e, t)
  | (inr a, t) => let (r, t') := k a in (r, (t ++ t')%list)
  end.

Definition emit (ev : event) : M unit := (inr tt, [ev]).

Definition print (line : string) : M unit := emit (Print line).

Definition lift {A : Type} (r : exn + A) : M A := (r, []).

(** [try: body except C as e: handler e], where [handles] tells the
    instances of [C]. *)
Definition try_except {A : Type} (body : M A) (handles : exn -> bool)
    (handler : exn -> M A) : M A :=
  match body with
  | (inl e, t) =>
      if handles e then let (r, t') := handler e in (r, (t ++ t')%list)
      else (inl e, t)
  | (inr a, t) => (inr a, t)
  end.

Declare Scope py_scope.
Delimit Scope py_scope with py.
Notation "x <- m ;; k" := (bind m (fun x => k))
  (at level 61, m at next level, right associativity) : py_scope.
Notation "m ;;; k" := (bind m (fun _ => k))
  (at level 61, right associativity) : py_scope.
Open Scope py_scope.

Definition result_of {A : Type} (m : M A) : exn + A := fst m.
Definition trace_of {A : Type} (m : M A) : trace := snd m.

Definition is_GroqCreate (ev : event) : bool :=
  match ev with GroqCreate _ _ _ => true | _ => false end.

Definition is_RequestsPost (ev : event) : bool :=
  match ev with RequestsPost _ _ _ => true | _ => false end.

(** ** Operations of Python and of [requests] that the handler uses *)

Definition nl : string := String (ascii_of_nat 10) EmptyString.

Definition type_name (v : json) : string :=
  match v with
  | JNull => "NoneType"
  | JBool _ => "bool"
  | JInt _ => "int"
  | JFloat _ => "float"
  | JStr _ => "str"
  | JArr _ => "list"
  | JObj _ => "dict"
  end.

(** [Response.raise_for_status()]: an [HTTPError] (a [RequestException]) for
    the codes 400 to 599, nothing for any other code. *)
Definition raise_for_status (r : Response) : exn + unit :=
  let code := resp_status_code r in
  if ((400 <=? code) && (code <? 500))%Z then
    inl (RequestException (decimal code ++ " Client Error: " ++ resp_reason r
                           ++ " for url: " ++ resp_url r))
  else if ((500 <=? code) && (code <? 600))%Z then
    inl (RequestException (decimal code ++ " Server Error: " ++ resp_reason r
                           ++ " for url: " ++ resp_url r))
  else inr tt.

(** [body.get(k, default)]: only a [dict] has the method. *)
Definition get_or (body : json) (k : string) (default : json) : exn + json :=
  match body with
  | JObj d => inr (match dict_get k d with Some v => v | None => default end)
  | _ => inl (AttributeError
                ("'" ++ type_name body ++ "' object has no attribute 'get'"))
  end.

(** The values [for mem in v] runs through. *)
Definition py_iter (v : json) : exn + list json :=
  match v with
  | JArr items => inr items
  | JStr s => inr (map (fun c => JStr (String c EmptyString))
                       (list_ascii_of_string s))
  | JObj d => inr (map (fun kv => JStr (fst kv)) d)
  | _ => inl (TypeError ("'" ++ type_name v ++ "' object is not iterable"))
  end.

(** [mem[k]] for a string [k]. *)
Definition subscript (mem : json) (k : string) : exn + json :=
  match mem with
  | JObj d =>
      match dict_get k d with
      | Some v => inr v
      | None => inl (KeyError k)
      end
  | JArr _ => inl (TypeError "list indices must be integers or slices, not str")
  | JStr _ => inl (TypeError "string indices must be integers, not 'str'")
  | _ => inl (TypeError ("'" ++ type_name mem ++ "' object is not subscriptable"))
  end.

(** [[mem['text'] for mem in mems]]: the first failing element raises. *)
Fixpoint texts_of (mems : list json) : exn + list json :=
  match mems with
  | [] => inr []
  | mem :: rest =>
      match subscript mem "text" with
      | inl e => inl e
      | inr v =>
          match texts_of rest with
          | inl e => inl e
          | inr vs => inr (v :: vs)
          end
      end
  end.

(** The items of [sep.join(xs)] must all be [str]. *)
Fixpoint str_items (i : Z) (xs : list json) : exn + list string :=
  match xs with
  | [] => inr []
  | JStr s :: rest =>
      match str_items (i + 1) rest with
      | inl e => inl e
      | inr ss => inr (s :: ss)
      end
  | x :: _ =>
      inl (TypeError ("sequence item " ++ decimal i
                      ++ ": expected str instance, " ++ type_name x ++ " found"))
  end.

Definition str_join (sep : string) (xs : list json) : exn + string :=
  match str_items 0 xs with
  | inl e => inl e
  | inr ss => inr (String.concat sep ss)
  end.

(** ** Configuration and request model *)

Definition MEM0_API_URL : string := "https://api.mem0.ai/v1/memories".

(** [os.environ.get(...)] is a [str] or [None]. *)
Record Config : Type := { GROQ_API_KEY : option string;
                          MEM0_API_KEY : option string }.

Record ChatRequest : Type := { user_id : string; message : string }.

(** ** [handle_chat] *)

Definition bootstrap_context : string :=
  "This is the first time we are talking. Let's get to know each other.".

Definition memories_header : string := "--- Start of Memories ---".
Definition memories_footer : string := "--- End of Memories ---".

(** Lines 39 to 44: the context built from [memories_data]. *)
Definition memory_context_of (memories_data : json) : exn + string :=
  if truthy memories_data then
    match py_iter memories_data with
    | inl e => inl e
    | inr mems =>
        match texts_of mems with
        | inl e => inl e
        | inr texts =>
            match str_join nl texts with
            | inl e => inl e
            | inr formatted_memories =>
                inr (memories_header ++ nl ++ formatted_memories ++ nl
                     ++ memories_footer)
            end
        end
    end
  else inr bootstrap_context.

(** Lines 35 to 44: what the handler computes from the response of the
    memory service. *)
Definition context_of_response (response : Response) : exn + string :=
  match raise_for_status response with
  | inl e => inl e
  | inr _ =>
      match resp_json response with
      | inl e => inl e
      | inr body =>
          match get_or body "memories" (JArr []) with
          | inl e => inl e
          | inr memories_data => memory_context_of memories_data
          end
      end
  end.

Definition mem0_headers (cfg : Config) : dict string :=
  [("Authorization", "Bearer " ++ format_opt (MEM0_API_KEY cfg))].

Definition mem0_params (request : ChatRequest) : dict string :=
  [("user_id", user_id request)].

(** The answer of the memory service to the read of line 34. *)
Definition memory_read (cfg : Config) (w : World) (request : ChatRequest)
    : exn + Response :=
  requests_get w MEM0_API_URL (mem0_headers cfg) (mem0_params request).

(** Step 1, lines 31 to 48.  It leaves [headers] and [memory_context]. *)
Definition retrieve_memories (cfg : Config) (w : World) (request : ChatRequest)
    : M (dict string * string) :=
  try_except
    (let headers := mem0_headers cfg in
     let params := mem0_params request in
     emit (RequestsGet MEM0_API_URL headers params) ;;;
     match requests_get w MEM0_API_URL headers params with
     | inl e => raise e
     | inr response =>
         memory_context <- lift (context_of_response response) ;;
         ret (headers, memory_context)
     end)
    is_RequestException
    (fun e =>
       print ("Error retrieving memories: " ++ exn_str e) ;;;
       raise (HTTPException 500 "Failed to retrieve memories.")).

Definition system_prompt : string :=
  "You are a helpful and friendly personal assistant. "
  ++ "You have a perfect memory. Use the provided memories to personalize the conversation. "
  ++ "Be conversational and refer to past details naturally.".

Definition model_id : string := "llama3-8b-8192".
Definition temperature : float := 0.7%float.

Definition prompt_messages (memory_context : string) (request : ChatRequest)
    : list Message :=
  [ {| role := "system"; content := system_prompt |};
    {| role := "system"; content := memory_context |};
    {| role := "user"; content := message request |} ].

(** [choices[0]]. *)
Definition first_choice (cs : list Choice) : exn + Choice :=
  match cs with
  | c :: _ => inr c
  | [] => inl (IndexError "list index out of range")
  end.

(** Step 2, lines 51 to 71.  It leaves [ai_response]. *)
Definition call_groq (w : World) (memory_context : string)
    (request : ChatRequest) : M (option string) :=
  try_except
    (let messages := prompt_messages memory_context request in
     emit (GroqCreate messages model_id temperature) ;;;
     chat_completion <- lift (groq_create w messages model_id temperature) ;;
     choice <- lift (first_choice (choices chat_completion)) ;;
     ret (msg_content (choice_message choice)))
    is_Exception
    (fun e =>
       print ("Error calling Groq: " ++ exn_str e) ;;;
       raise (HTTPException 500 "Failed to get response from LLM.")).

Definition interaction_to_save (request : ChatRequest)
    (ai_response : option string) : string :=
  "User said: '" ++ message request ++ "'. You replied: '"
  ++ format_opt ai_response ++ "'".

Definition save_payload (request : ChatRequest) (ai_response : option string)
    : dict string :=
  [("user_id", user_id request);
   ("data", interaction_to_save request ai_response)].

(** The answer of the memory service to the write of line 80. *)
Definition memory_write (cfg : Config) (w : World) (request : ChatRequest)
    (ai_response : option string) : exn + Response :=
  requests_post w MEM0_API_URL (mem0_headers cfg)
    (save_payload request ai_response).

(** The answer of the inference service to the call of line 58. *)
Definition inference (w : World) (memory_context : string)
    (request : ChatRequest) : exn + ChatCompletion :=
  groq_create w (prompt_messages memory_context request) model_id temperature.

(** Step 3, lines 74 to 85. *)
Definition save_interaction (w : World) (headers : dict string)
    (request : ChatRequest) (ai_response : option string) : M unit :=
  try_except
    (let payload := save_payload request ai_response in
     emit (RequestsPost MEM0_API_URL headers payload) ;;;
     match requests_post w MEM0_API_URL headers payload with
     | inl e => raise e
     | inr _ => print "Successfully saved interaction to Mem0."
     end)
    is_RequestException
    (fun e => print ("Warning: Could not save memory: " ++ exn_str e)).

(** Lines 27 to 88: the value returned is the dict [{"reply": ai_response}]. *)
Definition handle_chat (cfg : Config) (w : World) (request : ChatRequest)
    : M (dict json) :=
  print ("Received message from user: " ++ user_id request) ;;;
  hc <- retrieve_memories cfg w request ;;
  let (headers, memory_context) := hc : dict string * string in
  ai_response <- call_groq w memory_context request ;;
  save_interaction w headers request ai_response ;;;
  ret [("reply", json_of_opt ai_response)].

(** Lines 91 to 93. *)
Definition read_root : M (dict json) := ret [("Status", JStr "OK")].

(** ** The FastAPI route *)

Inductive http_body : Type :=
| JsonBody (j : json)
| TextBody (s : string)
| ValidationErrors.  (* [{"detail": [...]}], the errors as pydantic words them *)

Record http_response : Type := { status : Z; body : http_body }.

(** What the framework sends for the outcome of a path operation: the
    returned dict as JSON with status 200, an [HTTPException] as its status
    and [{"detail": ...}], any other exception as the server's plain 500. *)
Definition respond (r : exn + dict json) : http_response :=
  match r with
  | inr d => {| status := 200; body := JsonBody (JObj d) |}
  | inl (HTTPException code detail) =>
      {| status := code; body := JsonBody (JObj [("detail", JStr detail)]) |}
  | inl _ => {| status := 500; body := TextBody "Internal Server Error" |}
  end.

Section Validation.

(** The validation of a field annotated [str].  A JSON string is taken as
    it is; what becomes of another JSON value depends on the version of
    pydantic (version 1 converts numbers, version 2 rejects them), so it
    is left open. *)
Variable str_field : json -> option string.

(** The model [ChatRequest] read from a request body: both fields are
    required, other fields are ignored, and no further constraint is
    declared on either. *)
Definition ChatRequest_validate (request_body : json) : option ChatRequest :=
  match request_body with
  | JObj d =>
      match dict_get "user_id" d, dict_get "message" d with
      | Some u, Some m =>
          match str_field u, str_field m with
          | Some uid, Some msg => Some {| user_id := uid; message := msg |}
          | _, _ => None
          end
      | _, _ => None
      end
  | _ => None
  end.

(** [POST /chat]: a body that does not validate is answered 422 and the
    handler does not run. *)
Definition post_chat (cfg : Config) (w : World) (request_body : json)
    : http_response * trace :=
  match ChatRequest_validate request_body with
  | Some request =>
      let m := handle_chat cfg w request in
      (respond (result_of m), trace_of m)
  | None =>
      ({| status := 422; body := ValidationErrors |}, [])
  end.

End Validation.

(** The strictest reading of [str]: only JSON strings. *)
Definition strict_str (v : json) : option string :=
  match v with JStr s => Some s | _ => None end.

(** ** Events and outcomes named in the properties *)

Definition read_event (cfg : Config) (request : ChatRequest) : event :=
  RequestsGet MEM0_API_URL (mem0_headers cfg) (mem0_params request).

Definition infer_event (memory_context : string) (request : ChatRequest)
    : event :=
  GroqCreate (prompt_messages memory_context request) model_id temperature.

Definition write_event (cfg : Config) (request : ChatRequest)
    (ai_response : option string) : event :=
  RequestsPost MEM0_API_URL (mem0_headers cfg) (save_payload request ai_response).

Definition retrieval_failure : exn :=
  HTTPException 500 "Failed to retrieve memories.".

Definition generation_failure : exn :=
  HTTPException 500 "Failed to get response from LLM.".

(** The line that step 3 prints after the write, when it prints one. *)
Definition write_log (o : exn + Response) : string :=
  match o with
  | inl e => "Warning: Could not save memory: " ++ exn_str e
  | inr _ => "Successfully saved interaction to Mem0."
  end.

(** A write that step 3 lets pass: the call returned, or it raised a
    [RequestException]. *)
Definition write_caught (o : exn + Response) : bool :=
  match o with
  | inl e => is_RequestException e
  | inr _ => true
  end.


Definition json_reply (ai_response : option string) : http_response :=
  {| status := 200;
     body := JsonBody (JObj [("reply", json_of_opt ai_response)]) |}.

Definition json_error (detail : string) : http_response :=
  {| status := 500; body := JsonBody (JObj [("detail", JStr detail)]) |}.

(** The text of a memory record [{"text": string, ...}]. *)
Definition record_text (mem : json) : option string :=
  match mem with
  | JObj d =>
      match dict_get "text" d with
      | Some (JStr t) => Some t
      | _ => None
      end
  | _ => None
  end.

Definition is_dict (v : json) : bool :=
  match v with JObj _ => true | _ => false end.

(** A record object without the key ['text']. *)
Definition lacks_text (mem : json) : bool :=
  match mem with
  | JObj d => match dict_get "text" d with None => true | Some _ => false end
  | _ => false
  end.

(** ** Sample runs *)

Definition mk_response (code : Z) (reason : string) (j : json) : Response :=
  {| resp_status_code := code; resp_reason := reason;
     resp_url := MEM0_API_URL; resp_json := inr j |}.

Definition ok_response (j : json) : Response := mk_response 200 "OK" j.

Definition completion (s : string) : ChatCompletion :=
  {| choices := [ {| choice_message := {| msg_content := Some s |} |} ] |}.

(** A world that answers every call the same way. *)
Definition mk_world (g : exn + Response) (i : exn + ChatCompletion)
    (p : exn + Response) : World :=
  {| requests_get := fun _ _ _ => g;
     groq_create := fun _ _ _ => i;
     requests_post := fun _ _ _ => p |}.

Definition sample_cfg : Config :=
  {| GROQ_API_KEY := Some "gk"; MEM0_API_KEY := Some "mk" |}.

Definition sam : ChatRequest := {| user_id := "u1"; message := "Hi, I'm Sam" |}.

Definition no_memories : json := JObj [("memories", JArr [])].

Definition two_records : list json :=
  [ JObj [("id", JInt 1); ("text", JStr "Sam likes tea.")];
    JObj [("text", JStr "Sam lives in Oslo."); ("id", JInt 2)] ].

Definition two_memories : json := JObj [("memories", JArr two_records)].

(** The scenario of a first conversation. *)
Definition sam_world : World :=
  mk_world (inr (ok_response no_memories)) (inr (completion "Hello Sam!"))
           (inr (ok_response (JObj []))).

Definition returning_world : World :=
  mk_world (inr (ok_response two_memories)) (inr (completion "Welcome back!"))
           (inr (ok_response (JObj []))).

Definition read_down_world : World :=
  mk_world (inl (RequestException "Connection refused"))
           (inr (completion "Hello Sam!"))
           (inr (ok_response (JObj []))).

Definition read_404_world : World :=
  mk_world (inr (mk_response 404 "Not Found" JNull))
           (inr (completion "Hello Sam!")) (inr (ok_response (JObj []))).

(** The memory service answers the read with a 3xx status and a body. *)
Definition read_300_world : World :=
  mk_world (inr (mk_response 300 "Multiple Choices" no_memories))
           (inr (completion "Hello Sam!")) (inr (ok_response (JObj []))).

Definition groq_down_world : World :=
  mk_world (inr (ok_response two_memories)) (inl (OtherException "rate limit"))
           (inr (ok_response (JObj []))).

Definition write_down_world : World :=
  mk_world (inr (ok_response two_memories)) (inr (completion "Welcome back!"))
           (inl (RequestException "Read timed out")).

Definition write_500_world : World :=
  mk_world (inr (ok_response two_memories)) (inr (completion "Welcome back!"))
           (inr (mk_response 500 "Internal Server Error" JNull)).

Definition textless_memories : json :=
  JObj [("memories",
         JArr [ JObj [("text", JStr "Sam likes tea.")];
                JObj [("memory", JStr "Sam lives in Oslo.")] ])].

Definition textless_world : World :=
  mk_world (inr (ok_response textless_memories)) (inr (completion "Hello Sam!"))
           (inr (ok_response (JObj []))).

(** The memory service answers the read with an object without "memories". *)
Definition keyless_world : World :=
  mk_world (inr (ok_response (JObj [("results", JArr [])])))
           (inr (completion "Hello Sam!")) (inr (ok_response (JObj []))).

(** A request body whose [user_id] is the empty string. *)
Definition empty_user_body : json :=
  JObj [("user_id", JStr ""); ("message", JStr "Hi, I'm Sam")].

(** ** More events, shapes of records and sample worlds *)

Definition is_RequestsGet (ev : event) : bool :=
  match ev with RequestsGet _ _ _ => true | _ => false end.

Definition received_line (request : ChatRequest) : event :=
  Print ("Received message from user: " ++ user_id request).

Definition is_list (v : json) : bool :=
  match v with JArr _ => true | _ => false end.

Definition is_str (v : json) : bool :=
  match v with JStr _ => true | _ => false end.

(** The [Authorization] header, spelled out by the value of the key. *)
Definition bearer (key : option string) : dict string :=
  match key with
  | Some k => [("Authorization", "Bearer " ++ k)]
  | None => [("Authorization", "Bearer None")]
  end.

(** A record object that has the key ['text']. *)
Definition has_text_key (mem : json) : bool :=
  match mem with
  | JObj d => match dict_get "text" d with Some _ => true | None => false end
  | _ => false
  end.

(** A record object whose ['text'] is there and is not a [str]. *)
Definition text_not_str (mem : json) : bool :=
  match mem with
  | JObj d =>
      match dict_get "text" d with
      | Some (JStr _) => false
      | Some _ => true
      | None => false
      end
  | _ => false
  end.

(** The inference service answers without any choice. *)
Definition no_choice_world : World :=
  mk_world (inr (ok_response two_memories)) (inr {| choices := [] |})
           (inr (ok_response (JObj []))).

(** The first choice has no content (its [content] is [None]). *)
Definition none_content_world : World :=
  mk_world (inr (ok_response no_memories))
           (inr {| choices := [ {| choice_message := {| msg_content := None |} |} ] |})
           (inr (ok_response (JObj []))).

(** The body of the read is not JSON; the decoder's exception is a
    [ValueError] that is not a [RequestException]. *)
Definition bad_json_world : World :=
  mk_world (inr {| resp_status_code := 200; resp_reason := "OK";
                   resp_url := MEM0_API_URL;
                   resp_json := inl (OtherException "Expecting value: line 1 column 1 (char 0)") |})
           (inr (completion "Hello Sam!")) (inr (ok_response (JObj []))).

(** The body of the read is a JSON list. *)
Definition list_body_world : World :=
  mk_world (inr (ok_response (JArr two_records)))
           (inr (completion "Hello Sam!")) (inr (ok_response (JObj []))).

(** "memories" is an object, not a list. *)
Definition dict_memories_world : World :=
  mk_world (inr (ok_response
                   (JObj [("memories", JObj [("text", JStr "Sam likes tea.")])])))
           (inr (completion "Hello Sam!")) (inr (ok_response (JObj []))).

(** A record whose text is [null]. *)
Definition null_text_world : World :=
  mk_world (inr (ok_response
                   (JObj [("memories",
                           JArr [ JObj [("text", JStr "Sam likes tea.")];
                                  JObj [("text", JNull)] ])])))
           (inr (completion "Hello Sam!")) (inr (ok_response (JObj []))).


Definition header_encode_error : exn :=
  OtherException
    "'latin-1' codec can't encode characters in position 7-8: ordinal not in range(256)".



(** The read raises an exception that is not a [RequestException]. *)
Definition read_crash_world : World :=
  mk_world (inl header_encode_error)
           (inr (completion "Hello Sam!")) (inr (ok_response (JObj []))).

Definition keyless_cfg : Config :=
  {| GROQ_API_KEY := Some "gk"; MEM0_API_KEY := None |}.

(** * Properties *)

(** ** The monad *)

Lemma bind_ret_l {A B : Type} (a : A) (k : A -> M B) : bind (ret a) k = k a.
Proof. unfold bind, ret. now destruct (k a). Qed.

Lemma bind_ret_r {A : Type} (m : M A) : bind m ret = m.
Proof.
  destruct m as [[e | a] t]; unfold bind, ret; [reflexivity |].
  now rewrite app_nil_r.
Qed.

Lemma bind_assoc {A B C : Type} (m : M A) (k : A -> M B) (h : B -> M C) :
  bind (bind m k) h = bind m (fun a => bind (k a) h).
Proof.
  destruct m as [[e | a] t]; unfold bind; [reflexivity |].
  destruct (k a) as [[e | b] t']; [reflexivity |].
  destruct (h b) as [r t'']. now rewrite app_assoc.
Qed.

Lemma try_except_returns {A : Type} (a : A) (t : trace) handles handler :
  try_except (inr a, t) handles handler = (inr a, t).
Proof. reflexivity. Qed.

(** The health probe: a fixed body, no call, no output. *)
Lemma read_root_ok :
  respond (result_of read_root)
  = {| status := 200; body := JsonBody (JObj [("Status", JStr "OK")]) |}
  /\ trace_of read_root = [].
Proof. split; reflexivity. Qed.

(** ** The three steps, outcome by outcome *)

Ltac run_step :=
  repeat match goal with
         | H : _ = inl _ |- _ => rewrite H
         | H : _ = inr _ |- _ => rewrite H
         | H : _ = true |- _ => rewrite H
         | H : _ = false |- _ => rewrite H
         end;
  try reflexivity.

Lemma retrieve_memories_returns cfg w request response ctx :
  memory_read cfg w request = inr response ->
  context_of_response response = inr ctx ->
  retrieve_memories cfg w request
  = (inr (mem0_headers cfg, ctx), [read_event cfg request]).
Proof.
  unfold memory_read, retrieve_memories, read_event. intros Hget Hctx.
  cbv zeta. now run_step.
Qed.

Lemma retrieve_memories_read_raises cfg w request e :
  memory_read cfg w request = inl e ->
  retrieve_memories cfg w request
  = if is_RequestException e
    then (inl retrieval_failure,
          [read_event cfg request;
           Print ("Error retrieving memories: " ++ exn_str e)])
    else (inl e, [read_event cfg request]).
Proof.
  unfold memory_read, retrieve_memories, read_event. intros Hget.
  cbv zeta. rewrite Hget. now destruct e.
Qed.

Lemma retrieve_memories_network_error cfg w request msg :
  memory_read cfg w request = inl (RequestException msg) ->
  retrieve_memories cfg w request
  = (inl retrieval_failure,
     [read_event cfg request; Print ("Error retrieving memories: " ++ msg)]).
Proof. intros Hget. exact (retrieve_memories_read_raises _ _ _ Hget). Qed.

Lemma retrieve_memories_raises cfg w request response e :
  memory_read cfg w request = inr response ->
  context_of_response response = inl e ->
  retrieve_memories cfg w request
  = if is_RequestException e
    then (inl retrieval_failure,
          [read_event cfg request;
           Print ("Error retrieving memories: " ++ exn_str e)])
    else (inl e, [read_event cfg request]).
Proof.
  unfold memory_read, retrieve_memories, read_event. intros Hget Hctx.
  cbv zeta. rewrite Hget, Hctx. now destruct e.
Qed.

Lemma call_groq_returns w ctx request completion ch rest :
  inference w ctx request = inr completion ->
  choices completion = ch :: rest ->
  call_groq w ctx request
  = (inr (msg_content (choice_message ch)), [infer_event ctx request]).
Proof.
  unfold inference, call_groq, infer_event. intros Hinf Hch.
  cbv zeta. rewrite Hinf. simpl. now rewrite Hch.
Qed.

Lemma call_groq_raises w ctx request e :
  inference w ctx request = inl e ->
  call_groq w ctx request
  = (inl generation_failure,
     [infer_event ctx request; Print ("Error calling Groq: " ++ exn_str e)]).
Proof.
  unfold inference, call_groq, infer_event. intros Hinf.
  cbv zeta. now rewrite Hinf.
Qed.

Lemma call_groq_no_choice w ctx request completion :
  inference w ctx request = inr completion ->
  choices completion = [] ->
  call_groq w ctx request
  = (inl generation_failure,
     [infer_event ctx request;
      Print "Error calling Groq: list index out of range"]).
Proof.
  unfold inference, call_groq, infer_event. intros Hinf Hch.
  cbv zeta. rewrite Hinf. simpl. now rewrite Hch.
Qed.

Lemma save_interaction_run cfg w request ai_response :
  write_caught (memory_write cfg w request ai_response) = true ->
  save_interaction w (mem0_headers cfg) request ai_response
  = (inr tt,
     [write_event cfg request ai_response;
      Print (write_log (memory_write cfg w request ai_response))]).
Proof.
  unfold memory_write, save_interaction, write_event. cbv zeta.
  destruct (requests_post w _ _ _) as [e | r]; [| reflexivity].
  destruct e; try discriminate. reflexivity.
Qed.

Lemma save_interaction_raises cfg w request ai_response e :
  memory_write cfg w request ai_response = inl e ->
  is_RequestException e = false ->
  save_interaction w (mem0_headers cfg) request ai_response
  = (inl e, [write_event cfg request ai_response]).
Proof.
  unfold memory_write, save_interaction, write_event. cbv zeta.
  intros -> He. now destruct e.
Qed.

(** A request that passes steps 1 and 2 and whose write raises an exception
    other than a [RequestException]. *)
Lemma handle_chat_write_raises
    cfg w request response ctx completion ch rest e :
  memory_read cfg w request = inr response ->
  context_of_response response = inr ctx ->
  inference w ctx request = inr completion ->
  choices completion = ch :: rest ->
  memory_write cfg w request (msg_content (choice_message ch)) = inl e ->
  is_RequestException e = false ->
  handle_chat cfg w request
  = (inl e,
     [Print ("Received message from user: " ++ user_id request);
      read_event cfg request;
      infer_event ctx request;
      write_event cfg request (msg_content (choice_message ch))]).
Proof.
  intros Hget Hctx Hinf Hch Hpost He. unfold handle_chat.
  rewrite (retrieve_memories_returns _ _ _ Hget Hctx). cbn [bind print emit].
  rewrite (call_groq_returns _ _ _ Hinf Hch). cbn [bind].
  rewrite (save_interaction_raises _ _ _ _ Hpost He). reflexivity.
Qed.

(** A request that passes steps 1 and 2 and whose write returns or raises a
    [RequestException]. *)
Lemma handle_chat_completes cfg w request response ctx completion ch rest :
  memory_read cfg w request = inr response ->
  context_of_response response = inr ctx ->
  inference w ctx request = inr completion ->
  choices completion = ch :: rest ->
  write_caught
    (memory_write cfg w request (msg_content (choice_message ch))) = true ->
  handle_chat cfg w request
  = (inr [("reply", json_of_opt (msg_content (choice_message ch)))],
     [Print ("Received message from user: " ++ user_id request);
      read_event cfg request;
      infer_event ctx request;
      write_event cfg request (msg_content (choice_message ch));
      Print (write_log
               (memory_write cfg w request (msg_content (choice_message ch))))]).
Proof.
  intros Hget Hctx Hinf Hch Hw. unfold handle_chat.
  rewrite (retrieve_memories_returns _ _ _ Hget Hctx). cbn [bind print emit].
  rewrite (call_groq_returns _ _ _ Hinf Hch). cbn [bind].
  rewrite (save_interaction_run _ _ _ _ Hw). reflexivity.
Qed.

(** The two ways a request that passes steps 1 and 2 can end. *)
Lemma handle_chat_write_cases cfg w request response ctx completion ch rest :
  memory_read cfg w request = inr response ->
  context_of_response response = inr ctx ->
  inference w ctx request = inr completion ->
  choices completion = ch :: rest ->
  (exists line,
     handle_chat cfg w request
     = (inr [("reply", json_of_opt (msg_content (choice_message ch)))],
        [Print ("Received message from user: " ++ user_id request);
         read_event cfg request;
         infer_event ctx request;
         write_event cfg request (msg_content (choice_message ch));
         Print line]))
  \/ (exists e,
        memory_write cfg w request (msg_content (choice_message ch)) = inl e
        /\ is_RequestException e = false
        /\ handle_chat cfg w request
           = (inl e,
              [Print ("Received message from user: " ++ user_id request);
               read_event cfg request;
               infer_event ctx request;
               write_event cfg request (msg_content (choice_message ch))])).
Proof.
  intros Hget Hctx Hinf Hch.
  destruct (write_caught
              (memory_write cfg w request (msg_content (choice_message ch))))
    eqn:Hw.
  - left. eexists. exact (handle_chat_completes _ _ _ Hget Hctx Hinf Hch Hw).
  - right.
    destruct (memory_write cfg w request (msg_content (choice_message ch)))
      as [e | r] eqn:Hpost; [| discriminate].
    exists e. repeat split; trivial.
    exact (handle_chat_write_raises _ _ _ Hget Hctx Hinf Hch Hpost Hw).
Qed.

(** A request whose step 1 raises stops there. *)
Lemma handle_chat_read_failure cfg w request e t :
  retrieve_memories cfg w request = (inl e, t) ->
  handle_chat cfg w request
  = (inl e, Print ("Received message from user: " ++ user_id request) :: t).
Proof. intros H. unfold handle_chat. now rewrite H. Qed.

(** A request that passes step 1 calls the inference service once, with the
    context of step 1. *)
Lemma handle_chat_after_read cfg w request response ctx :
  memory_read cfg w request = inr response ->
  context_of_response response = inr ctx ->
  exists r tail,
    handle_chat cfg w request
    = (r, Print ("Received message from user: " ++ user_id request)
          :: read_event cfg request :: infer_event ctx request :: tail)
    /\ existsb is_GroqCreate tail = false.
Proof.
  intros Hget Hctx.
  destruct (inference w ctx request) as [e | completion] eqn:Hinf.
  - unfold handle_chat.
    rewrite (retrieve_memories_returns _ _ _ Hget Hctx). cbn [bind print emit].
    rewrite (call_groq_raises _ _ _ Hinf). now eexists _, _.
  - destruct (choices completion) as [| ch rest] eqn:Hch.
    + unfold handle_chat.
      rewrite (retrieve_memories_returns _ _ _ Hget Hctx). cbn [bind print emit].
      rewrite (call_groq_no_choice _ _ _ Hinf Hch). now eexists _, _.
    + destruct (handle_chat_write_cases _ _ _ Hget Hctx Hinf Hch)
        as [[line ->] | (e & _ & _ & ->)]; now eexists _, _.
Qed.

Lemma raise_for_status_error response :
  (400 <= resp_status_code response < 600)%Z ->
  exists msg, raise_for_status response = inl (RequestException msg).
Proof.
  intros H. unfold raise_for_status.
  destruct ((400 <=? resp_status_code response)
            && (resp_status_code response <? 500))%Z eqn:E4;
    [eexists; reflexivity|].
  destruct ((500 <=? resp_status_code response)
            && (resp_status_code response <? 600))%Z eqn:E5;
    [eexists; reflexivity|].
  apply andb_false_iff in E4, E5. lia.
Qed.

Lemma raise_for_status_passes response :
  (resp_status_code response < 400 \/ 600 <= resp_status_code response)%Z ->
  raise_for_status response = inr tt.
Proof.
  intros H. unfold raise_for_status.
  destruct (400 <=? resp_status_code response)%Z eqn:E4,
           (resp_status_code response <? 500)%Z eqn:E4',
           (500 <=? resp_status_code response)%Z eqn:E5,
           (resp_status_code response <? 600)%Z eqn:E5'; simpl; try reflexivity;
    lia.
Qed.

(** ** The claims *)




(** C2 (as amended): when the memory read fails with a [RequestException],
    that is on a network error or on a status from 400 to 599 (the codes
    [raise_for_status] rejects), [handle_chat] never calls the inference
    service and answers 500 with the detail "Failed to retrieve memories.". *)
Theorem C2_read_failure_aborts_before_inference cfg w request :
  (exists msg, memory_read cfg w request = inl (RequestException msg))
  \/ (exists response,
        memory_read cfg w request = inr response
        /\ (400 <= resp_status_code response < 600)%Z) ->
  result_of (handle_chat cfg w request)
  = inl (HTTPException 500 "Failed to retrieve memories.")
  /\ respond (result_of (handle_chat cfg w request))
     = {| status := 500;
          body := JsonBody (JObj [("detail", JStr "Failed to retrieve memories.")]) |}
  /\ existsb is_GroqCreate (trace_of (handle_chat cfg w request)) = false.
Proof.
  intros [[msg Hget] | [response [Hget Hcode]]].
  - rewrite (handle_chat_read_failure _ _ _
               (retrieve_memories_network_error _ _ _ Hget)).
    repeat split.
  - destruct (raise_for_status_error _ Hcode) as [msg Hmsg].
    assert (Hctx : context_of_response response = inl (RequestException msg))
      by (unfold context_of_response; now rewrite Hmsg).
    pose proof (retrieve_memories_raises _ _ _ Hget Hctx) as Hrun.
    rewrite (handle_chat_read_failure _ _ _ Hrun).
    repeat split.
Qed.

Lemma C2_witness :
  result_of (handle_chat sample_cfg read_404_world sam)
  = inl (HTTPException 500 "Failed to retrieve memories.")
  /\ respond (result_of (handle_chat sample_cfg read_404_world sam))
     = {| status := 500;
          body := JsonBody (JObj [("detail", JStr "Failed to retrieve memories.")]) |}
  /\ existsb is_GroqCreate
       (trace_of (handle_chat sample_cfg read_404_world sam)) = false.
Proof.
  apply (@C2_read_failure_aborts_before_inference sample_cfg read_404_world sam).
  right. exists (mk_response 404 "Not Found" JNull).
  split; [reflexivity | simpl; lia].
Defined.

(** C2 as stated fails: a read answered with status 300, which is not a 2xx
    status, and a JSON body is not a failure for the handler; it calls the
    inference service and answers 200. *)
Lemma C2_counterexample :
  (exists response,
     memory_read sample_cfg read_300_world sam = inr response
     /\ resp_status_code response = 300%Z
     /\ ~ (200 <= resp_status_code response < 300)%Z)
  /\ existsb is_GroqCreate
       (trace_of (handle_chat sample_cfg read_300_world sam)) = true
  /\ respond (result_of (handle_chat sample_cfg read_300_world sam))
     = {| status := 200;
          body := JsonBody (JObj [("reply", JStr "Hello Sam!")]) |}.
Proof.
  split; [| split; reflexivity].
  eexists. split; [reflexivity |]. simpl. split; [reflexivity | lia].
Qed.

(** C3: when the memory read succeeds and the inference call raises an
    exception, [handle_chat] answers 500 with the detail
    "Failed to get response from LLM." and attempts no memory write. *)
Theorem C3_inference_failure_aborts_before_write
    cfg w request response ctx e :
  memory_read cfg w request = inr response ->
  context_of_response response = inr ctx ->
  inference w ctx request = inl e ->
  result_of (handle_chat cfg w request)
  = inl (HTTPException 500 "Failed to get response from LLM.")
  /\ respond (result_of (handle_chat cfg w request))
     = {| status := 500;
          body := JsonBody
                    (JObj [("detail", JStr "Failed to get response from LLM.")]) |}
  /\ existsb is_RequestsPost (trace_of (handle_chat cfg w request)) = false.
Proof.
  intros Hget Hctx Hinf. unfold handle_chat.
  rewrite (retrieve_memories_returns _ _ _ Hget Hctx). cbn [bind print emit].
  rewrite (call_groq_raises _ _ _ Hinf). repeat split.
Qed.

Lemma C3_witness :
  result_of (handle_chat sample_cfg groq_down_world sam)
  = inl (HTTPException 500 "Failed to get response from LLM.")
  /\ respond (result_of (handle_chat sample_cfg groq_down_world sam))
     = {| status := 500;
          body := JsonBody
                    (JObj [("detail", JStr "Failed to get response from LLM.")]) |}
  /\ existsb is_RequestsPost
       (trace_of (handle_chat sample_cfg groq_down_world sam)) = false.
Proof.
  eapply (@C3_inference_failure_aborts_before_write sample_cfg groq_down_world
           sam (ok_response two_memories) _ (OtherException "rate limit"));
    reflexivity.
Defined.




(** C9: the status of the answer to the memory write is never looked at.
    Whatever the status of the response that the POST returns, a 4xx or 5xx
    included, nothing is raised, the success line is printed after the write,
    and the request is answered 200 with the computed reply. *)
Theorem C9_write_status_is_not_checked
    cfg w request response ctx completion ch rest write_response :
  memory_read cfg w request = inr response ->
  context_of_response response = inr ctx ->
  inference w ctx request = inr completion ->
  choices completion = ch :: rest ->
  memory_write cfg w request (msg_content (choice_message ch))
  = inr write_response ->
  handle_chat cfg w request
  = (inr [("reply", json_of_opt (msg_content (choice_message ch)))],
     [Print ("Received message from user: " ++ user_id request);
      read_event cfg request;
      infer_event ctx request;
      write_event cfg request (msg_content (choice_message ch));
      Print "Successfully saved interaction to Mem0."])
  /\ respond (result_of (handle_chat cfg w request))
     = {| status := 200;
          body := JsonBody
                    (JObj [("reply", json_of_opt (msg_content (choice_message ch)))]) |}.
Proof.
  intros Hget Hctx Hinf Hch Hpost.
  assert (Hw : write_caught
                 (memory_write cfg w request (msg_content (choice_message ch)))
               = true) by now rewrite Hpost.
  rewrite (handle_chat_completes _ _ _ Hget Hctx Hinf Hch Hw), Hpost.
  split; reflexivity.
Qed.

Lemma C9_witness :
  handle_chat sample_cfg write_500_world sam
  = (inr [("reply", JStr "Welcome back!")],
     [Print "Received message from user: u1";
      read_event sample_cfg sam;
      infer_event
        (memories_header ++ nl ++ "Sam likes tea." ++ nl
         ++ "Sam lives in Oslo." ++ nl ++ memories_footer) sam;
      write_event sample_cfg sam (Some "Welcome back!");
      Print "Successfully saved interaction to Mem0."])
  /\ respond (result_of (handle_chat sample_cfg write_500_world sam))
     = {| status := 200;
          body := JsonBody (JObj [("reply", JStr "Welcome back!")]) |}.
Proof.
  eapply (@C9_write_status_is_not_checked sample_cfg write_500_world sam
           (ok_response two_memories) _ (completion "Welcome back!")
           {| choice_message := {| msg_content := Some "Welcome back!" |} |} []
           (mk_response 500 "Internal Server Error" JNull));
    reflexivity.
Defined.

(** ** The memory context *)

Lemma texts_of_records mems : forall texts,
  map record_text mems = map Some texts ->
  texts_of mems = inr (map JStr texts).
Proof.
  induction mems as [| mem mems IH]; intros [| t texts] H; try discriminate.
  - reflexivity.
  - simpl in H. injection H as Hmem Hrest.
    simpl. rewrite (IH _ Hrest).
    destruct mem as [| | | | | |d]; try discriminate. simpl in *.
    destruct (dict_get "text" d) as [[| | | |s| |]|]; try discriminate.
    now injection Hmem as ->.
Qed.

Lemma str_items_strings texts : forall i,
  str_items i (map JStr texts) = inr texts.
Proof.
  induction texts as [| t texts IH]; intros i; simpl.
  - reflexivity.
  - now rewrite IH.
Qed.

Lemma memory_context_of_records mems texts :
  mems <> [] ->
  map record_text mems = map Some texts ->
  memory_context_of (JArr mems)
  = inr (memories_header ++ nl ++ String.concat nl texts ++ nl
         ++ memories_footer).
Proof.
  intros Hne Htexts. unfold memory_context_of.
  destruct mems as [| mem mems]; [contradiction |].
  cbn [truthy py_iter]. rewrite (texts_of_records _ _ Htexts).
  unfold str_join. now rewrite str_items_strings.
Qed.

Lemma context_of_response_dict response d :
  raise_for_status response = inr tt ->
  resp_json response = inr (JObj d) ->
  context_of_response response
  = memory_context_of
      (match dict_get "memories" d with Some v => v | None => JArr [] end).
Proof.
  intros Hst Hjson. unfold context_of_response. now rewrite Hst, Hjson.
Qed.

(** C5: for a successful memory read that returns the records [mems] with
    the texts [texts]: with one record or more, the memory context is the
    header line, the texts joined by newlines in the order received (each
    record contributes its text once, nothing is sorted), and the footer
    line; with no record it is the bootstrap string.  The bootstrap string is
    not empty, and neither is the context in any case. *)
Theorem C5_memory_context_from_records response d mems texts :
  raise_for_status response = inr tt ->
  resp_json response = inr (JObj d) ->
  dict_get "memories" d = Some (JArr mems) ->
  map record_text mems = map Some texts ->
  (mems <> [] ->
   context_of_response response
   = inr ("--- Start of Memories ---" ++ nl ++ String.concat nl texts ++ nl
          ++ "--- End of Memories ---"))
  /\ (mems = [] -> context_of_response response = inr bootstrap_context)
  /\ bootstrap_context <> ""
  /\ (forall ctx, context_of_response response = inr ctx -> ctx <> "").
Proof.
  intros Hst Hjson Hmem Htexts.
  rewrite (context_of_response_dict _ Hst Hjson), Hmem.
  assert (Hpos : mems <> [] ->
                 memory_context_of (JArr mems)
                 = inr (memories_header ++ nl ++ String.concat nl texts ++ nl
                        ++ memories_footer))
    by (intros Hne; now apply memory_context_of_records).
  repeat split.
  - exact Hpos.
  - now intros ->.
  - discriminate.
  - intros ctx Hctx. destruct mems as [| mem mems].
    + injection Hctx as <-. discriminate.
    + rewrite Hpos in Hctx by discriminate. injection Hctx as <-. discriminate.
Qed.

Lemma C5_witness :
  (two_records <> [] ->
   context_of_response (ok_response two_memories)
   = inr ("--- Start of Memories ---" ++ nl
          ++ String.concat nl ["Sam likes tea."; "Sam lives in Oslo."] ++ nl
          ++ "--- End of Memories ---"))
  /\ (two_records = [] ->
      context_of_response (ok_response two_memories) = inr bootstrap_context)
  /\ bootstrap_context <> ""
  /\ (forall ctx,
        context_of_response (ok_response two_memories) = inr ctx -> ctx <> "").
Proof.
  exact (@C5_memory_context_from_records (ok_response two_memories) _
           two_records ["Sam likes tea."; "Sam lives in Oslo."]
           eq_refl eq_refl eq_refl eq_refl).
Defined.

(** ** The call to the inference service *)

Lemma existsb_false_In {A : Type} (f : A -> bool) (l : list A) (x : A) :
  existsb f l = false -> In x l -> f x = false.
Proof.
  intros Hex Hin. destruct (f x) eqn:Hfx; [| reflexivity].
  rewrite <- Hex. symmetry. apply existsb_exists. now exists x.
Qed.

(** C6: whenever [handle_chat] calls the inference service, it passes exactly
    three messages, in this order: the fixed system instruction, the memory
    context of step 1 as a second system message, and the user's message as
    the user turn; the model is "llama3-8b-8192" and the temperature 0.7. *)
Theorem C6_inference_call_arguments cfg w request messages model temp :
  In (GroqCreate messages model temp) (trace_of (handle_chat cfg w request)) ->
  exists response memory_context,
    memory_read cfg w request = inr response
    /\ context_of_response response = inr memory_context
    /\ messages
       = [ {| role := "system"; content := system_prompt |};
           {| role := "system"; content := memory_context |};
           {| role := "user"; content := message request |} ]
    /\ model = "llama3-8b-8192"
    /\ temp = 0.7%float.
Proof.
  intros Hin.
  destruct (memory_read cfg w request) as [e | response] eqn:Hget.
  - pose proof (retrieve_memories_read_raises _ _ _ Hget) as Hrun.
    destruct (is_RequestException e);
      rewrite (handle_chat_read_failure _ _ _ Hrun) in Hin; simpl in Hin;
      intuition discriminate.
  - destruct (context_of_response response) as [e | ctx] eqn:Hctx.
    + pose proof (retrieve_memories_raises _ _ _ Hget Hctx) as Hrun.
      destruct (is_RequestException e);
        rewrite (handle_chat_read_failure _ _ _ Hrun) in Hin; simpl in Hin;
        intuition discriminate.
    + destruct (handle_chat_after_read _ _ _ Hget Hctx)
        as (r & tail & Hrun & Htail).
      rewrite Hrun in Hin. simpl in Hin.
      destruct Hin as [H | [H | [H | H]]]; try discriminate.
      * injection H as <- <- <-. now exists response, ctx.
      * apply (existsb_false_In _ _ _ Htail) in H. discriminate.
Qed.

Lemma C6_witness :
  exists response memory_context,
    memory_read sample_cfg sam_world sam = inr response
    /\ context_of_response response = inr memory_context
    /\ prompt_messages bootstrap_context sam
       = [ {| role := "system"; content := system_prompt |};
           {| role := "system"; content := memory_context |};
           {| role := "user"; content := message sam |} ]
    /\ model_id = "llama3-8b-8192"
    /\ temperature = 0.7%float.
Proof.
  apply (@C6_inference_call_arguments sample_cfg sam_world sam).
  simpl. right. right. left. reflexivity.
Defined.

(** ** Answers of the memory service that do not have the expected shape *)

Lemma texts_of_KeyError pre : forall mem post,
  forallb is_dict pre = true ->
  lacks_text mem = true ->
  texts_of (pre ++ mem :: post) = inl (KeyError "text").
Proof.
  induction pre as [| x pre IH]; intros mem post Hpre Hmem.
  - destruct mem as [| | | | | |d]; try discriminate. simpl in *.
    now destruct (dict_get "text" d).
  - simpl in Hpre. apply andb_true_iff in Hpre as [Hx Hpre].
    destruct x as [| | | | | |d]; try discriminate.
    cbn [app texts_of subscript]. rewrite (IH _ post Hpre Hmem).
    now destruct (dict_get "text" d).
Qed.

Lemma str_items_records texts : forall i ss,
  str_items i texts = inr ss -> texts = map JStr ss.
Proof.
  induction texts as [| x texts IH]; intros i ss H; simpl in H.
  - now injection H as <-.
  - destruct x; try discriminate.
    destruct (str_items (i + 1) texts) as [e | ss'] eqn:Hrest; [discriminate |].
    injection H as <-. simpl. now rewrite (IH _ _ Hrest).
Qed.

Lemma texts_of_total mems : forall ss,
  texts_of mems = inr (map JStr ss) ->
  Forall (fun mem => record_text mem <> None) mems.
Proof.
  induction mems as [| mem mems IH]; intros ss H; [constructor |].
  simpl in H.
  destruct (subscript mem "text") as [e | v] eqn:Hsub; [discriminate |].
  destruct (texts_of mems) as [e | vs] eqn:Hrest; [discriminate |].
  injection H as H. destruct ss as [| s ss]; [discriminate |].
  simpl in H. injection H as -> ->. constructor; [| now apply (IH ss)].
  destruct mem as [| | | | | |d]; try discriminate. simpl in *.
  destruct (dict_get "text" d) as [v |]; [| discriminate].
  injection Hsub as ->. discriminate.
Qed.

(** The formatting step returns only if every record has a text. *)
Lemma memory_context_of_total mems ctx :
  memory_context_of (JArr mems) = inr ctx ->
  Forall (fun mem => record_text mem <> None) mems.
Proof.
  unfold memory_context_of. destruct mems as [| mem mems]; [constructor |].
  cbn [truthy py_iter]. remember (mem :: mems) as l.
  destruct (texts_of l) as [e | texts] eqn:Htexts; [discriminate |].
  unfold str_join.
  destruct (str_items 0 texts) as [e | ss] eqn:Hss; [discriminate |].
  intros _. apply str_items_records in Hss. subst texts.
  now apply (texts_of_total _ _ Htexts).
Qed.

(** C8: when the read succeeds with a 2xx status and the "memories" list of
    its JSON body holds a record object that has no 'text' key (the elements
    before it being record objects too), [handle_chat] raises
    [KeyError('text')] out of step 1: the exception is not a
    [RequestException], so it is not turned into the 500 answer
    "Failed to retrieve memories." and the framework answers its plain 500.
    The formatting step returns a context only if every record has a text. *)
Theorem C8_record_without_text_raises_KeyError
    cfg w request response d pre mem post :
  memory_read cfg w request = inr response ->
  (200 <= resp_status_code response < 300)%Z ->
  resp_json response = inr (JObj d) ->
  dict_get "memories" d = Some (JArr (pre ++ mem :: post)) ->
  forallb is_dict pre = true ->
  lacks_text mem = true ->
  handle_chat cfg w request
  = (inl (KeyError "text"),
     [Print ("Received message from user: " ++ user_id request);
      read_event cfg request])
  /\ result_of (handle_chat cfg w request)
     <> inl (HTTPException 500 "Failed to retrieve memories.")
  /\ respond (result_of (handle_chat cfg w request))
     = {| status := 500; body := TextBody "Internal Server Error" |}
  /\ (forall records ctx,
        memory_context_of (JArr records) = inr ctx ->
        Forall (fun record => record_text record <> None) records).
Proof.
  intros Hget Hcode Hjson Hmem Hpre Hlacks.
  assert (Hst : raise_for_status response = inr tt)
    by (apply raise_for_status_passes; lia).
  assert (Hctx : context_of_response response = inl (KeyError "text")).
  { rewrite (context_of_response_dict _ Hst Hjson), Hmem.
    unfold memory_context_of.
    replace (truthy (JArr (pre ++ mem :: post))) with true
      by (now destruct pre).
    cbn [py_iter]. now rewrite (texts_of_KeyError _ _ post Hpre Hlacks). }
  pose proof (retrieve_memories_raises _ _ _ Hget Hctx) as Hrun.
  cbn [is_RequestException] in Hrun.
  rewrite (handle_chat_read_failure _ _ _ Hrun).
  repeat split; try discriminate.
  intros records ctx. apply memory_context_of_total.
Qed.

Lemma C8_witness :
  handle_chat sample_cfg textless_world sam
  = (inl (KeyError "text"),
     [Print ("Received message from user: " ++ user_id sam);
      read_event sample_cfg sam])
  /\ result_of (handle_chat sample_cfg textless_world sam)
     <> inl (HTTPException 500 "Failed to retrieve memories.")
  /\ respond (result_of (handle_chat sample_cfg textless_world sam))
     = {| status := 500; body := TextBody "Internal Server Error" |}
  /\ (forall records ctx,
        memory_context_of (JArr records) = inr ctx ->
        Forall (fun record => record_text record <> None) records).
Proof.
  eapply (@C8_record_without_text_raises_KeyError sample_cfg textless_world sam
            (ok_response textless_memories) _
            [JObj [("text", JStr "Sam likes tea.")]]
            (JObj [("memory", JStr "Sam lives in Oslo.")]) []);
    try reflexivity.
  simpl. lia.
Defined.

(** C10: when the read succeeds and its JSON body is an object without the
    key "memories", [handle_chat] takes it for no record at all: step 1
    returns the bootstrap context, nothing is raised there, and the inference
    service is called with that context. *)
Theorem C10_missing_memories_key_is_no_record cfg w request response d :
  memory_read cfg w request = inr response ->
  raise_for_status response = inr tt ->
  resp_json response = inr (JObj d) ->
  dict_get "memories" d = None ->
  context_of_response response = inr bootstrap_context
  /\ retrieve_memories cfg w request
     = (inr (mem0_headers cfg, bootstrap_context), [read_event cfg request])
  /\ In (GroqCreate
           [ {| role := "system"; content := system_prompt |};
             {| role := "system"; content := bootstrap_context |};
             {| role := "user"; content := message request |} ]
           model_id temperature)
        (trace_of (handle_chat cfg w request)).
Proof.
  intros Hget Hst Hjson Hmem.
  assert (Hctx : context_of_response response = inr bootstrap_context)
    by (now rewrite (context_of_response_dict _ Hst Hjson), Hmem).
  repeat split.
  - exact Hctx.
  - exact (retrieve_memories_returns _ _ _ Hget Hctx).
  - destruct (handle_chat_after_read _ _ _ Hget Hctx)
      as (r & tail & Hrun & _).
    rewrite Hrun. simpl. right. right. left. reflexivity.
Qed.

Lemma C10_witness :
  context_of_response (ok_response (JObj [("results", JArr [])]))
  = inr bootstrap_context
  /\ retrieve_memories sample_cfg keyless_world sam
     = (inr (mem0_headers sample_cfg, bootstrap_context),
        [read_event sample_cfg sam])
  /\ In (GroqCreate
           [ {| role := "system"; content := system_prompt |};
             {| role := "system"; content := bootstrap_context |};
             {| role := "user"; content := message sam |} ]
           model_id temperature)
        (trace_of (handle_chat sample_cfg keyless_world sam)).
Proof.
  eapply (@C10_missing_memories_key_is_no_record sample_cfg keyless_world sam);
    reflexivity.
Defined.

(** ** The request model *)

Section ChatRequestValidation.

Variable str_field : json -> option string.
Hypothesis str_field_str : forall s, str_field (JStr s) = Some s.

Lemma ChatRequest_validate_accepts request_body request :
  ChatRequest_validate str_field request_body = Some request ->
  exists d u m,
    request_body = JObj d
    /\ dict_get "user_id" d = Some u
    /\ dict_get "message" d = Some m
    /\ str_field u = Some (user_id request)
    /\ str_field m = Some (message request).
Proof.
  unfold ChatRequest_validate. intros H.
  destruct request_body as [| | | | | |d]; try discriminate.
  destruct (dict_get "user_id" d) as [u |] eqn:Hu; [| discriminate].
  destruct (dict_get "message" d) as [m |] eqn:Hm; [| discriminate].
  destruct (str_field u) as [uid |] eqn:Huid; [| discriminate].
  destruct (str_field m) as [msg |] eqn:Hmsg; [| discriminate].
  injection H as <-. now exists d, u, m.
Qed.

(** C7 (as amended): a request accepted by [POST /chat] has a string
    [user_id] and a string [message], the validated fields of the same names
    of a body that is an object; nothing requires them to be non-empty: a
    body whose [user_id] and [message] are JSON strings is accepted whatever
    their length, the empty [user_id] included, and is handed to
    [handle_chat]. *)
Theorem C7_string_fields_are_accepted_as_they_are cfg w d uid msg :
  dict_get "user_id" d = Some (JStr uid) ->
  dict_get "message" d = Some (JStr msg) ->
  ChatRequest_validate str_field (JObj d)
  = Some {| user_id := uid; message := msg |}
  /\ post_chat str_field cfg w (JObj d)
     = (respond (result_of (handle_chat cfg w {| user_id := uid; message := msg |})),
        trace_of (handle_chat cfg w {| user_id := uid; message := msg |}))
  /\ (forall request_body request,
        ChatRequest_validate str_field request_body = Some request ->
        exists d' u m,
          request_body = JObj d'
          /\ dict_get "user_id" d' = Some u
          /\ dict_get "message" d' = Some m
          /\ str_field u = Some (user_id request)
          /\ str_field m = Some (message request)).
Proof.
  intros Hu Hm.
  assert (Hv : ChatRequest_validate str_field (JObj d)
               = Some {| user_id := uid; message := msg |})
    by (unfold ChatRequest_validate; now rewrite Hu, Hm, !str_field_str).
  repeat split.
  - exact Hv.
  - unfold post_chat. now rewrite Hv.
  - exact ChatRequest_validate_accepts.
Qed.

End ChatRequestValidation.

Lemma C7_witness :
  ChatRequest_validate strict_str empty_user_body
  = Some {| user_id := ""; message := "Hi, I'm Sam" |}
  /\ post_chat strict_str sample_cfg sam_world empty_user_body
     = (respond (result_of (handle_chat sample_cfg sam_world
                              {| user_id := ""; message := "Hi, I'm Sam" |})),
        trace_of (handle_chat sample_cfg sam_world
                    {| user_id := ""; message := "Hi, I'm Sam" |}))
  /\ (forall request_body request,
        ChatRequest_validate strict_str request_body = Some request ->
        exists d' u m,
          request_body = JObj d'
          /\ dict_get "user_id" d' = Some u
          /\ dict_get "message" d' = Some m
          /\ strict_str u = Some (user_id request)
          /\ strict_str m = Some (message request)).
Proof.
  apply (@C7_string_fields_are_accepted_as_they_are strict_str
           (fun s => eq_refl) sample_cfg sam_world
           [("user_id", JStr ""); ("message", JStr "Hi, I'm Sam")]);
    reflexivity.
Defined.

(** C7 as stated fails: the body with the empty [user_id] is accepted, even
    under the strictest reading of [str], and processed: the memory service
    is read for the user "" and the request is answered 200. *)
Lemma C7_counterexample :
  ChatRequest_validate strict_str empty_user_body
  = Some {| user_id := ""; message := "Hi, I'm Sam" |}
  /\ post_chat strict_str sample_cfg sam_world empty_user_body
     = ({| status := 200;
           body := JsonBody (JObj [("reply", JStr "Hello Sam!")]) |},
        [Print "Received message from user: ";
         RequestsGet MEM0_API_URL [("Authorization", "Bearer mk")]
           [("user_id", "")];
         infer_event bootstrap_context
           {| user_id := ""; message := "Hi, I'm Sam" |};
         RequestsPost MEM0_API_URL [("Authorization", "Bearer mk")]
           [("user_id", "");
            ("data", "User said: 'Hi, I'm Sam'. You replied: 'Hello Sam!'")];
         Print "Successfully saved interaction to Mem0."]).
Proof. split; reflexivity. Qed.

(** * Further properties of [handle_chat] *)

(** ** Every run, by the step where it ends *)

Lemma handle_chat_step1_raises cfg w request response e :
  memory_read cfg w request = inr response ->
  context_of_response response = inl e ->
  is_RequestException e = false ->
  handle_chat cfg w request
  = (inl e, [received_line request; read_event cfg request]).
Proof.
  intros Hget Hctx He.
  pose proof (retrieve_memories_raises _ _ _ Hget Hctx) as Hrun.
  rewrite He in Hrun. exact (handle_chat_read_failure _ _ _ Hrun).
Qed.

Lemma handle_chat_read_raises cfg w request e :
  memory_read cfg w request = inl e ->
  is_RequestException e = false ->
  handle_chat cfg w request
  = (inl e, [received_line request; read_event cfg request]).
Proof.
  intros Hget He.
  pose proof (retrieve_memories_read_raises _ _ _ Hget) as Hrun.
  rewrite He in Hrun. exact (handle_chat_read_failure _ _ _ Hrun).
Qed.

Lemma handle_chat_step1_caught cfg w request :
  (exists e, memory_read cfg w request = inl e
             /\ is_RequestException e = true)
  \/ (exists response e,
        memory_read cfg w request = inr response
        /\ context_of_response response = inl e
        /\ is_RequestException e = true) ->
  exists line,
    handle_chat cfg w request
    = (inl retrieval_failure,
       [received_line request; read_event cfg request; Print line]).
Proof.
  intros [(e & Hget & He) | (response & e & Hget & Hctx & He)].
  - pose proof (retrieve_memories_read_raises _ _ _ Hget) as Hrun.
    rewrite He in Hrun. eexists.
    exact (handle_chat_read_failure _ _ _ Hrun).
  - pose proof (retrieve_memories_raises _ _ _ Hget Hctx) as Hrun.
    rewrite He in Hrun. eexists.
    exact (handle_chat_read_failure _ _ _ Hrun).
Qed.

Lemma handle_chat_step2_fails cfg w request response ctx :
  memory_read cfg w request = inr response ->
  context_of_response response = inr ctx ->
  (exists e, inference w ctx request = inl e)
  \/ (exists completion,
        inference w ctx request = inr completion /\ choices completion = []) ->
  exists line,
    handle_chat cfg w request
    = (inl generation_failure,
       [received_line request; read_event cfg request;
        infer_event ctx request; Print line]).
Proof.
  intros Hget Hctx Hfail. unfold handle_chat.
  rewrite (retrieve_memories_returns _ _ _ Hget Hctx). cbn [bind print emit].
  destruct Hfail as [[e Hinf] | (completion & Hinf & Hch)].
  - rewrite (call_groq_raises _ _ _ Hinf). now eexists.
  - rewrite (call_groq_no_choice _ _ _ Hinf Hch). now eexists.
Qed.

(** The five ways a run can go: step 1 answers the retrieval failure;
    step 1 raises something else; step 2 answers the generation failure;
    the reply is returned; the write raises. *)
Lemma handle_chat_cases cfg w request :
  (exists line,
     handle_chat cfg w request
     = (inl retrieval_failure,
        [received_line request; read_event cfg request; Print line])
     /\ forall response ctx,
          memory_read cfg w request = inr response ->
          context_of_response response <> inr ctx)
  \/ (exists e,
        is_RequestException e = false
        /\ (memory_read cfg w request = inl e
            \/ exists response,
                 memory_read cfg w request = inr response
                 /\ context_of_response response = inl e)
        /\ handle_chat cfg w request
           = (inl e, [received_line request; read_event cfg request]))
  \/ (exists response ctx line,
        memory_read cfg w request = inr response
        /\ context_of_response response = inr ctx
        /\ ((exists e, inference w ctx request = inl e)
            \/ (exists completion,
                  inference w ctx request = inr completion
                  /\ choices completion = []))
        /\ handle_chat cfg w request
           = (inl generation_failure,
              [received_line request; read_event cfg request;
               infer_event ctx request; Print line]))
  \/ (exists response ctx completion ch rest line,
        memory_read cfg w request = inr response
        /\ context_of_response response = inr ctx
        /\ inference w ctx request = inr completion
        /\ choices completion = ch :: rest
        /\ handle_chat cfg w request
           = (inr [("reply", json_of_opt (msg_content (choice_message ch)))],
              [received_line request; read_event cfg request;
               infer_event ctx request;
               write_event cfg request (msg_content (choice_message ch));
               Print line]))
  \/ (exists response ctx completion ch rest e,
        memory_read cfg w request = inr response
        /\ context_of_response response = inr ctx
        /\ inference w ctx request = inr completion
        /\ choices completion = ch :: rest
        /\ memory_write cfg w request (msg_content (choice_message ch)) = inl e
        /\ is_RequestException e = false
        /\ handle_chat cfg w request
           = (inl e,
              [received_line request; read_event cfg request;
               infer_event ctx request;
               write_event cfg request (msg_content (choice_message ch))])).
Proof.
  destruct (memory_read cfg w request) as [e | response] eqn:Hget.
  - destruct (is_RequestException e) eqn:He.
    + left. destruct (@handle_chat_step1_caught cfg w request) as [line Hrun];
        [left; now exists e |].
      exists line. split; [exact Hrun | discriminate].
    + right; left. exists e. repeat split; trivial; [now left |].
      exact (handle_chat_read_raises _ _ _ Hget He).
  - destruct (context_of_response response) as [e | ctx] eqn:Hctx.
    + destruct (is_RequestException e) eqn:He.
      * left. destruct (@handle_chat_step1_caught cfg w request) as [line Hrun];
          [right; now exists response, e |].
        exists line. split; [exact Hrun |].
        intros response' ctx' Heq. injection Heq as <-. now rewrite Hctx.
      * right; left. exists e. repeat split; trivial;
          [right; now exists response |].
        exact (handle_chat_step1_raises _ _ _ Hget Hctx He).
    + destruct (inference w ctx request) as [e | completion] eqn:Hinf.
      * right; right; left.
        destruct (@handle_chat_step2_fails cfg w request response ctx Hget Hctx)
          as [line Hrun]; [left; now exists e |].
        exists response, ctx, line. repeat split; trivial.
        left. now exists e.
      * destruct (choices completion) as [| ch rest] eqn:Hch.
        -- right; right; left.
           destruct (@handle_chat_step2_fails cfg w request response ctx Hget Hctx)
          as [line Hrun];
             [right; now exists completion |].
           exists response, ctx, line. repeat split; trivial.
           right. now exists completion.
        -- right; right; right.
           destruct (handle_chat_write_cases _ _ _ Hget Hctx Hinf Hch)
             as [[line Hrun] | (e & Hpost & He & Hrun)].
           ++ left. now exists response, ctx, completion, ch, rest, line.
           ++ right. now exists response, ctx, completion, ch, rest, e.
Qed.

Ltac run_cases cfg w request :=
  destruct (handle_chat_cases cfg w request)
    as [(?line & ?Hrun & ?Hno)
       | [(?e & ?He & ?Hfrom & ?Hrun)
         | [(?response & ?ctx & ?line & ?Hget & ?Hctx & ?Hfail & ?Hrun)
           | [(?response & ?ctx & ?cc & ?ch & ?rest & ?line
               & ?Hget & ?Hctx & ?Hinf & ?Hch & ?Hrun)
             | (?response & ?ctx & ?cc & ?ch & ?rest & ?e
                & ?Hget & ?Hctx & ?Hinf & ?Hch & ?Hpost & ?He & ?Hrun)]]]].

(** ** The outbound calls of a run *)

Lemma short_list_split {A : Type} (P : list A -> A -> Prop) (l : list A) :
  (forall i x, nth_error l i = Some x -> P (firstn i l) x) ->
  forall pre x post, l = (pre ++ x :: post)%list -> P pre x.
Proof.
  intros H pre x post ->.
  specialize (H (length pre) x).
  rewrite nth_error_app2, Nat.sub_diag in H by reflexivity.
  rewrite firstn_app, firstn_all, Nat.sub_diag in H. simpl in H.
  rewrite app_nil_r in H. now apply H.
Qed.

(** X1: in every run the trace starts with the line that names the user and
    one read of the memory service; after it come no further read, at most
    one call to the inference service and at most one write, and a write
    comes only after the call to the inference service.  A run makes at most
    three outbound calls. *)
Theorem handle_chat_call_discipline cfg w request :
  exists tail,
    trace_of (handle_chat cfg w request)
    = received_line request :: read_event cfg request :: tail
    /\ existsb is_RequestsGet tail = false
    /\ length (filter is_GroqCreate tail) <= 1
    /\ length (filter is_RequestsPost tail) <= 1
    /\ (forall pre ev post,
          tail = (pre ++ ev :: post)%list ->
          is_RequestsPost ev = true ->
          existsb is_GroqCreate pre = true)
    /\ length tail <= 3.
Proof.
  run_cases cfg w request; rewrite Hrun; eexists;
    (split; [reflexivity |]);
    cbn [existsb is_RequestsGet is_GroqCreate is_RequestsPost filter length
         infer_event write_event orb];
    repeat split; try lia;
    apply (short_list_split
             (fun pre ev => is_RequestsPost ev = true ->
                            existsb is_GroqCreate pre = true));
    intros [| [| [| [| i]]]] x Hx; cbn in Hx; try discriminate Hx;
    injection Hx as <-; try discriminate; reflexivity.
Qed.

(** X2: a memory write is attempted exactly in the runs whose memory read
    yields a context and whose inference call returns a first choice; so no
    reply is returned without the write having been attempted.  (A run whose
    write raises an exception that step 3 does not catch has attempted the
    write and returns no reply.) *)
Theorem write_attempted_iff_first_choice cfg w request :
  (existsb is_RequestsPost (trace_of (handle_chat cfg w request)) = true
   <-> exists response ctx completion ch rest,
         memory_read cfg w request = inr response
         /\ context_of_response response = inr ctx
         /\ inference w ctx request = inr completion
         /\ choices completion = ch :: rest)
  /\ (forall d,
        result_of (handle_chat cfg w request) = inr d ->
        existsb is_RequestsPost (trace_of (handle_chat cfg w request)) = true).
Proof.
  run_cases cfg w request; rewrite Hrun; (split; [split |]);
    try discriminate; try reflexivity.
  - intros (response & ctx & _ & _ & _ & Hget & Hctx & _).
    now destruct (Hno _ _ Hget Hctx).
  - intros (response & ctx & _ & _ & _ & Hget & Hctx & _).
    destruct Hfrom as [Hraise | (response' & Hget' & Hctx')].
    + rewrite Hget in Hraise. discriminate.
    + rewrite Hget in Hget'. injection Hget' as <-.
      rewrite Hctx in Hctx'. discriminate.
  - intros (response' & ctx' & cc & ch & rest & Hget' & Hctx' & Hinf & Hch).
    rewrite Hget in Hget'. injection Hget' as <-.
    rewrite Hctx in Hctx'. injection Hctx' as <-.
    destruct Hfail as [[e He] | (cc' & Hinf' & Hch')].
    + rewrite Hinf in He. discriminate.
    + rewrite Hinf in Hinf'. injection Hinf' as <-.
      rewrite Hch in Hch'. discriminate.
  - intros _. now exists response, ctx, cc, ch, rest.
  - intros _. now exists response, ctx, cc, ch, rest.
Qed.

(** X3: the inference service is called exactly in the runs whose memory read
    is answered and yields a context; no other run reaches it. *)
Theorem inference_called_iff_context_built cfg w request :
  existsb is_GroqCreate (trace_of (handle_chat cfg w request)) = true
  <-> exists response ctx,
        memory_read cfg w request = inr response
        /\ context_of_response response = inr ctx.
Proof.
  run_cases cfg w request; rewrite Hrun; split;
    try discriminate; try reflexivity;
    try (intros _; now exists response, ctx).
  - intros (response & ctx & Hget & Hctx). now destruct (Hno _ _ Hget Hctx).
  - intros (response & ctx & Hget & Hctx).
    destruct Hfrom as [Hraise | (response' & Hget' & Hctx')].
    + rewrite Hget in Hraise. discriminate.
    + rewrite Hget in Hget'. injection Hget' as <-.
      rewrite Hctx in Hctx'. discriminate.
Qed.

(** X4: the exceptions that leave [handle_chat] are the two
    [HTTPException]s with status 500 and the fixed details, and any
    exception other than a [RequestException] that is raised by the read
    call, by the examination of its answer in step 1, or by the write call
    of step 3.  Step 2 lets no exception out, and no [RequestException]
    ever leaves the handler. *)
Theorem handle_chat_raises_only cfg w request e :
  result_of (handle_chat cfg w request) = inl e ->
  e = HTTPException 500 "Failed to retrieve memories."
  \/ e = HTTPException 500 "Failed to get response from LLM."
  \/ (is_RequestException e = false
      /\ (memory_read cfg w request = inl e
          \/ (exists response,
                memory_read cfg w request = inr response
                /\ context_of_response response = inl e)
          \/ (exists ai_response,
                memory_write cfg w request ai_response = inl e))).
Proof.
  run_cases cfg w request; rewrite Hrun; cbn [result_of fst]; intros H;
    try discriminate H; injection H as <-.
  - now left.
  - right; right. split; [exact He |].
    destruct Hfrom as [Hraise | Hexamine]; [now left | right; now left].
  - right; now left.
  - right; right. split; [exact He |]. right; right.
    now exists (msg_content (choice_message ch)).
Qed.

Lemma handle_chat_raises_only_witness :
  KeyError "text" = HTTPException 500 "Failed to retrieve memories."
  \/ KeyError "text" = HTTPException 500 "Failed to get response from LLM."
  \/ (is_RequestException (KeyError "text") = false
      /\ (memory_read sample_cfg textless_world sam = inl (KeyError "text")
          \/ (exists response,
                memory_read sample_cfg textless_world sam = inr response
                /\ context_of_response response = inl (KeyError "text"))
          \/ (exists ai_response,
                memory_write sample_cfg textless_world sam ai_response
                = inl (KeyError "text")))).
Proof.
  apply (@handle_chat_raises_only sample_cfg textless_world sam).
  reflexivity.
Defined.

(** X5: when the inference service answers with an empty list of choices,
    [choices[0]] raises an [IndexError] inside step 2, which is caught like
    any failure of the call: the request is answered 500 with the detail
    "Failed to get response from LLM." and no memory write is attempted. *)
Theorem empty_choices_is_generation_failure
    cfg w request response ctx completion :
  memory_read cfg w request = inr response ->
  context_of_response response = inr ctx ->
  inference w ctx request = inr completion ->
  choices completion = [] ->
  handle_chat cfg w request
  = (inl (HTTPException 500 "Failed to get response from LLM."),
     [received_line request; read_event cfg request; infer_event ctx request;
      Print "Error calling Groq: list index out of range"])
  /\ respond (result_of (handle_chat cfg w request))
     = json_error "Failed to get response from LLM.".
Proof.
  intros Hget Hctx Hinf Hch. unfold handle_chat.
  rewrite (retrieve_memories_returns _ _ _ Hget Hctx). cbn [bind print emit].
  rewrite (call_groq_no_choice _ _ _ Hinf Hch). split; reflexivity.
Qed.

Lemma empty_choices_is_generation_failure_witness :
  handle_chat sample_cfg no_choice_world sam
  = (inl (HTTPException 500 "Failed to get response from LLM."),
     [received_line sam; read_event sample_cfg sam;
      infer_event
        (memories_header ++ nl ++ "Sam likes tea." ++ nl
         ++ "Sam lives in Oslo." ++ nl ++ memories_footer) sam;
      Print "Error calling Groq: list index out of range"])
  /\ respond (result_of (handle_chat sample_cfg no_choice_world sam))
     = json_error "Failed to get response from LLM.".
Proof.
  eapply (@empty_choices_is_generation_failure sample_cfg no_choice_world sam
            (ok_response two_memories) _ {| choices := [] |});
    reflexivity.
Defined.

(** X6: when [response.json()] raises, the class of the exception decides:
    a [RequestException] (the decoder's error in recent versions of
    [requests]) is answered like any retrieval failure, any other exception
    leaves [handle_chat] as it is.  In both cases the inference service is
    not called. *)
Theorem json_decoding_failure cfg w request response e :
  memory_read cfg w request = inr response ->
  raise_for_status response = inr tt ->
  resp_json response = inl e ->
  result_of (handle_chat cfg w request)
  = inl (if is_RequestException e
         then HTTPException 500 "Failed to retrieve memories."
         else e)
  /\ existsb is_GroqCreate (trace_of (handle_chat cfg w request)) = false.
Proof.
  intros Hget Hst Hjson.
  assert (Hctx : context_of_response response = inl e)
    by (unfold context_of_response; now rewrite Hst, Hjson).
  pose proof (retrieve_memories_raises _ _ _ Hget Hctx) as Hrun.
  destruct (is_RequestException e);
    rewrite (handle_chat_read_failure _ _ _ Hrun); split; reflexivity.
Qed.

Lemma json_decoding_failure_witness :
  result_of (handle_chat sample_cfg bad_json_world sam)
  = inl (OtherException "Expecting value: line 1 column 1 (char 0)")
  /\ existsb is_GroqCreate
       (trace_of (handle_chat sample_cfg bad_json_world sam)) = false.
Proof.
  eapply (@json_decoding_failure sample_cfg bad_json_world sam _
            (OtherException "Expecting value: line 1 column 1 (char 0)"));
    reflexivity.
Defined.

(** X7: when the JSON body of the read is not an object (a list, a string,
    a number, [null]), [.get] raises an [AttributeError] that step 1 does not
    catch: [handle_chat] raises it right after the read and the framework
    answers its plain 500. *)
Theorem non_object_body_raises_AttributeError cfg w request response body :
  memory_read cfg w request = inr response ->
  raise_for_status response = inr tt ->
  resp_json response = inr body ->
  is_dict body = false ->
  handle_chat cfg w request
  = (inl (AttributeError
            ("'" ++ type_name body ++ "' object has no attribute 'get'")),
     [received_line request; read_event cfg request])
  /\ respond (result_of (handle_chat cfg w request))
     = {| status := 500; body := TextBody "Internal Server Error" |}.
Proof.
  intros Hget Hst Hjson Hbody.
  assert (Hctx : context_of_response response
                 = inl (AttributeError
                          ("'" ++ type_name body
                           ++ "' object has no attribute 'get'"))).
  { unfold context_of_response. rewrite Hst, Hjson.
    now destruct body. }
  rewrite (handle_chat_step1_raises _ _ _ Hget Hctx eq_refl).
  split; reflexivity.
Qed.

Lemma non_object_body_raises_AttributeError_witness :
  handle_chat sample_cfg list_body_world sam
  = (inl (AttributeError "'list' object has no attribute 'get'"),
     [received_line sam; read_event sample_cfg sam])
  /\ respond (result_of (handle_chat sample_cfg list_body_world sam))
     = {| status := 500; body := TextBody "Internal Server Error" |}.
Proof.
  eapply (@non_object_body_raises_AttributeError sample_cfg list_body_world sam
            _ (JArr two_records));
    reflexivity.
Defined.

(** ** Shapes of the answer of the memory service *)

(** X8: the bootstrap string is the context exactly when the value of
    "memories" is falsy ([None], [False], a zero, an empty string, list or
    dict; a missing key stands for the empty list): a context built from
    records is never mistaken for it. *)
Theorem bootstrap_context_iff_falsy memories_data :
  memory_context_of memories_data = inr bootstrap_context
  <-> truthy memories_data = false.
Proof.
  unfold memory_context_of. split.
  - destruct (truthy memories_data); [| reflexivity].
    destruct (py_iter memories_data) as [e | mems]; [discriminate |].
    destruct (texts_of mems) as [e | texts]; [discriminate |].
    destruct (str_join nl texts) as [e | formatted]; [discriminate |].
    intros H. injection H as H. discriminate H.
  - now intros ->.
Qed.

Lemma texts_of_first_fails mem mems e :
  subscript mem "text" = inl e -> texts_of (mem :: mems) = inl e.
Proof. intros H. simpl. now rewrite H. Qed.

Lemma truthy_non_list_TypeError v :
  truthy v = true ->
  is_list v = false ->
  exists msg, memory_context_of v = inl (TypeError msg).
Proof.
  intros Ht Hl. unfold memory_context_of. rewrite Ht.
  destruct v as [| b | n | x | s | items | d]; try discriminate;
    try (eexists; reflexivity).
  - destruct s as [| c s]; [discriminate |]. eexists. reflexivity.
  - destruct d as [| [k v] d]; [discriminate |]. eexists. reflexivity.
Qed.

(** X9: when the value of "memories" is truthy and is not a list (a
    non-empty string or object, a non-zero number, [True]), the formatting of
    step 1 raises a [TypeError], which is not caught: [handle_chat] raises it
    right after the read. *)
Theorem non_list_memories_raise_TypeError cfg w request response d v :
  memory_read cfg w request = inr response ->
  raise_for_status response = inr tt ->
  resp_json response = inr (JObj d) ->
  dict_get "memories" d = Some v ->
  truthy v = true ->
  is_list v = false ->
  exists msg,
    handle_chat cfg w request
    = (inl (TypeError msg), [received_line request; read_event cfg request]).
Proof.
  intros Hget Hst Hjson Hmem Ht Hl.
  destruct (truthy_non_list_TypeError _ Ht Hl) as [msg Hmsg].
  exists msg. apply (handle_chat_step1_raises _ _ _ Hget); [| reflexivity].
  now rewrite (context_of_response_dict _ Hst Hjson), Hmem.
Qed.

Lemma non_list_memories_raise_TypeError_witness :
  exists msg,
    handle_chat sample_cfg dict_memories_world sam
    = (inl (TypeError msg), [received_line sam; read_event sample_cfg sam]).
Proof.
  eapply (@non_list_memories_raise_TypeError sample_cfg dict_memories_world sam);
    reflexivity.
Defined.

Lemma texts_of_with_text_keys mems :
  forallb has_text_key mems = true ->
  exists texts, texts_of mems = inr texts.
Proof.
  induction mems as [| mem mems IH]; simpl; [now eexists |].
  intros H. apply andb_true_iff in H as [Hmem Hall].
  destruct (IH Hall) as [texts ->].
  destruct mem as [| | | | | |d]; try discriminate. simpl in *.
  destruct (dict_get "text" d) as [v |]; [| discriminate]. now eexists.
Qed.

Lemma texts_of_keeps_non_str mems : forall texts,
  texts_of mems = inr texts ->
  existsb text_not_str mems = true ->
  existsb (fun v => negb (is_str v)) texts = true.
Proof.
  induction mems as [| mem mems IH]; intros texts H Hex; [discriminate |].
  simpl in H.
  destruct (subscript mem "text") as [e | v] eqn:Hsub; [discriminate |].
  destruct (texts_of mems) as [e | vs] eqn:Hrest; [discriminate |].
  injection H as <-. simpl in *. apply orb_true_iff in Hex as [Hmem | Hex].
  - destruct mem as [| | | | | |d]; try discriminate. simpl in *.
    destruct (dict_get "text" d) as [v' |]; [| discriminate].
    injection Hsub as ->. now destruct v.
  - rewrite (IH _ eq_refl Hex). apply orb_true_r.
Qed.

Lemma str_items_non_str xs : forall i,
  existsb (fun v => negb (is_str v)) xs = true ->
  exists msg, str_items i xs = inl (TypeError msg).
Proof.
  induction xs as [| x xs IH]; intros i H; [discriminate |].
  simpl in H. destruct x; try (eexists; reflexivity).
  simpl in H. destruct (IH (i + 1)%Z H) as [msg Hmsg].
  exists msg. simpl. now rewrite Hmsg.
Qed.

(** X10: when every record of the list has a 'text' and one of the texts is
    not a string ([null], a number, a list), the list comprehension passes
    and ["\n".join] raises a [TypeError], which is not caught: [handle_chat]
    raises it right after the read. *)
Theorem non_string_text_raises_TypeError cfg w request response d mems :
  memory_read cfg w request = inr response ->
  raise_for_status response = inr tt ->
  resp_json response = inr (JObj d) ->
  dict_get "memories" d = Some (JArr mems) ->
  forallb has_text_key mems = true ->
  existsb text_not_str mems = true ->
  exists msg,
    handle_chat cfg w request
    = (inl (TypeError msg), [received_line request; read_event cfg request]).
Proof.
  intros Hget Hst Hjson Hmem Hall Hex.
  destruct (texts_of_with_text_keys _ Hall) as [texts Htexts].
  pose proof (texts_of_keeps_non_str _ Htexts Hex) as Hnon.
  destruct (str_items_non_str _ 0%Z Hnon) as [msg Hmsg].
  exists msg. apply (handle_chat_step1_raises _ _ _ Hget); [| reflexivity].
  rewrite (context_of_response_dict _ Hst Hjson), Hmem.
  unfold memory_context_of. destruct mems as [| mem mems]; [discriminate |].
  cbn [truthy py_iter]. rewrite Htexts. unfold str_join. now rewrite Hmsg.
Qed.

Lemma non_string_text_raises_TypeError_witness :
  exists msg,
    handle_chat sample_cfg null_text_world sam
    = (inl (TypeError msg), [received_line sam; read_event sample_cfg sam]).
Proof.
  eapply (@non_string_text_raises_TypeError sample_cfg null_text_world sam);
    reflexivity.
Defined.

Lemma records_have_texts mems :
  Forall (fun record => record_text record <> None) mems ->
  exists texts, map record_text mems = map Some texts.
Proof.
  induction 1 as [| mem mems Hmem _ [texts IH]]; [now exists [] |].
  destruct (record_text mem) as [t |] eqn:Ht; [| contradiction].
  exists (t :: texts). simpl. now rewrite Ht, IH.
Qed.

(** X11: the formatting of step 1 returns a context for a list of records
    exactly when every element is an object whose 'text' is a string; on
    any other list it raises. *)
Theorem memory_context_defined_iff_texts mems :
  (exists ctx, memory_context_of (JArr mems) = inr ctx)
  <-> Forall (fun record => record_text record <> None) mems.
Proof.
  split.
  - intros [ctx Hctx]. exact (memory_context_of_total _ Hctx).
  - intros Hall. destruct (records_have_texts Hall) as [texts Htexts].
    destruct mems as [| mem mems]; [now eexists |].
    eexists. apply (@memory_context_of_records _ texts);
      [discriminate | exact Htexts].
Qed.

(** ** The reply and what is written *)

(** X12: when the first choice has no content ([None]), the interaction that
    is written to the memory service records the reply as the text 'None';
    and when that write returns or raises a [RequestException], the request
    is answered 200 with the reply [null]. *)
Theorem none_content_reply_is_null
    cfg w request response ctx cc ch rest :
  memory_read cfg w request = inr response ->
  context_of_response response = inr ctx ->
  inference w ctx request = inr cc ->
  choices cc = ch :: rest ->
  msg_content (choice_message ch) = None ->
  In (RequestsPost MEM0_API_URL (mem0_headers cfg)
        [("user_id", user_id request);
         ("data", "User said: '" ++ message request
                  ++ "'. You replied: 'None'")])
     (trace_of (handle_chat cfg w request))
  /\ (write_caught (memory_write cfg w request None) = true ->
      respond (result_of (handle_chat cfg w request))
      = {| status := 200; body := JsonBody (JObj [("reply", JNull)]) |}).
Proof.
  intros Hget Hctx Hinf Hch Hnone. split.
  - destruct (handle_chat_write_cases _ _ _ Hget Hctx Hinf Hch)
      as [[line ->] | (e & _ & _ & ->)];
      rewrite Hnone; simpl; right; right; right; left; reflexivity.
  - intros Hw. rewrite <- Hnone in Hw.
    now rewrite (handle_chat_completes _ _ _ Hget Hctx Hinf Hch Hw), Hnone.
Qed.

Lemma none_content_reply_is_null_witness :
  In (RequestsPost MEM0_API_URL (mem0_headers sample_cfg)
        [("user_id", user_id sam);
         ("data", "User said: '" ++ message sam
                  ++ "'. You replied: 'None'")])
     (trace_of (handle_chat sample_cfg none_content_world sam))
  /\ (write_caught (memory_write sample_cfg none_content_world sam None) = true ->
      respond (result_of (handle_chat sample_cfg none_content_world sam))
      = {| status := 200; body := JsonBody (JObj [("reply", JNull)]) |}).
Proof.
  eapply (@none_content_reply_is_null sample_cfg none_content_world sam
            (ok_response no_memories) _ _
            {| choice_message := {| msg_content := None |} |} []);
    reflexivity.
Defined.

(** X13: every call through [requests] in a run goes to the memory endpoint
    with the one [Authorization] header built from [MEM0_API_KEY] (the text
    "Bearer None" when the key is not set: nothing stops the call), the read
    carries the user of the request as its only parameter, and the write is
    filed under the same user and carries the user's message and a reply in
    its data: the reply that the run returns, if it returns one. *)
Theorem requests_calls_are_keyed_and_scoped cfg w request ev :
  In ev (trace_of (handle_chat cfg w request)) ->
  match ev with
  | RequestsGet url headers params =>
      url = "https://api.mem0.ai/v1/memories"
      /\ headers = bearer (MEM0_API_KEY cfg)
      /\ params = [("user_id", user_id request)]
  | RequestsPost url headers payload =>
      url = "https://api.mem0.ai/v1/memories"
      /\ headers = bearer (MEM0_API_KEY cfg)
      /\ dict_get "user_id" payload = Some (user_id request)
      /\ exists ai_response,
           dict_get "data" payload
           = Some ("User said: '" ++ message request ++ "'. You replied: '"
                   ++ format_opt ai_response ++ "'")
           /\ forall d,
                result_of (handle_chat cfg w request) = inr d ->
                d = [("reply", json_of_opt ai_response)]
  | _ => True
  end.
Proof.
  assert (Hh : mem0_headers cfg = bearer (MEM0_API_KEY cfg))
    by (unfold mem0_headers, bearer; now destruct (MEM0_API_KEY cfg)).
  run_cases cfg w request;
    rewrite Hrun; cbn [trace_of snd result_of fst]; intros Hin;
    repeat (destruct Hin as [<- | Hin]); try contradiction;
    cbn [received_line read_event infer_event write_event]; trivial;
    rewrite Hh; repeat split;
    exists (msg_content (choice_message ch)); split; try reflexivity.
  - intros d Hd. now injection Hd as <-.
  - discriminate.
Qed.

Lemma requests_calls_are_keyed_and_scoped_witness :
  MEM0_API_URL = "https://api.mem0.ai/v1/memories"
  /\ mem0_headers keyless_cfg = [("Authorization", "Bearer None")]
  /\ mem0_params sam = [("user_id", "u1")].
Proof.
  apply (@requests_calls_are_keyed_and_scoped keyless_cfg sam_world sam
           (read_event keyless_cfg sam)).
  simpl. right. left. reflexivity.
Defined.

(** X14: among the writes that step 3 lets pass (the call returns, or raises
    a [RequestException]), the answer to the client does not depend on the
    write: two worlds that answer the read and the inference call alike, and
    whose writes all are of that kind, give the same result. *)
Theorem result_independent_of_caught_write cfg w w' request :
  (forall url headers params,
     requests_get w url headers params = requests_get w' url headers params) ->
  (forall messages model temp,
     groq_create w messages model temp = groq_create w' messages model temp) ->
  (forall url headers payload,
     write_caught (requests_post w url headers payload) = true) ->
  (forall url headers payload,
     write_caught (requests_post w' url headers payload) = true) ->
  result_of (handle_chat cfg w request)
  = result_of (handle_chat cfg w' request).
Proof.
  intros Hg Hi Hp Hp'.
  assert (Hread : memory_read cfg w' request = memory_read cfg w request)
    by (unfold memory_read; now rewrite Hg).
  assert (Hinf : forall ctx,
             inference w' ctx request = inference w ctx request)
    by (intros ctx; unfold inference; now rewrite Hi).
  destruct (memory_read cfg w request) as [e | response] eqn:Hget.
  - pose proof (retrieve_memories_read_raises _ _ _ Hget) as Hrun.
    pose proof (retrieve_memories_read_raises _ _ _ Hread) as Hrun'.
    destruct (is_RequestException e);
      now rewrite (handle_chat_read_failure _ _ _ Hrun),
                  (handle_chat_read_failure _ _ _ Hrun').
  - destruct (context_of_response response) as [e | ctx] eqn:Hctx.
    + pose proof (retrieve_memories_raises _ _ _ Hget Hctx) as Hrun.
      pose proof (retrieve_memories_raises _ _ _ Hread Hctx) as Hrun'.
      destruct (is_RequestException e);
        now rewrite (handle_chat_read_failure _ _ _ Hrun),
                    (handle_chat_read_failure _ _ _ Hrun').
    + specialize (Hinf ctx).
      destruct (inference w ctx request) as [e | cc] eqn:Hc.
      * destruct (@handle_chat_step2_fails cfg w request response ctx Hget Hctx)
          as [line ->]; [left; now exists e |].
        destruct (@handle_chat_step2_fails cfg w' request response ctx
                    Hread Hctx) as [line' ->]; [left; now exists e |].
        reflexivity.
      * destruct (choices cc) as [| ch rest] eqn:Hch.
        -- destruct (@handle_chat_step2_fails cfg w request response ctx
                       Hget Hctx) as [line ->];
             [right; now exists cc |].
           destruct (@handle_chat_step2_fails cfg w' request response ctx
                       Hread Hctx) as [line' ->];
             [right; now exists cc |].
           reflexivity.
        -- now rewrite (handle_chat_completes _ _ _ Hget Hctx Hc Hch
                          (Hp _ _ _)),
                       (handle_chat_completes _ _ _ Hread Hctx Hinf Hch
                          (Hp' _ _ _)).
Qed.

Lemma result_independent_of_caught_write_witness :
  result_of (handle_chat sample_cfg returning_world sam)
  = result_of (handle_chat sample_cfg write_down_world sam).
Proof.
  apply (@result_independent_of_caught_write sample_cfg returning_world
           write_down_world sam);
    reflexivity.
Defined.

(** ** The route and the health probe *)



(** ** What is logged *)

(** X16: when the memory write raises a [RequestException], the run ends
    with the warning line
    that carries the text of the exception; the success line is not printed
    and the reply is returned all the same. *)
Theorem write_exception_is_logged_as_warning
    cfg w request response ctx completion ch rest msg :
  memory_read cfg w request = inr response ->
  context_of_response response = inr ctx ->
  inference w ctx request = inr completion ->
  choices completion = ch :: rest ->
  memory_write cfg w request (msg_content (choice_message ch))
  = inl (RequestException msg) ->
  handle_chat cfg w request
  = (inr [("reply", json_of_opt (msg_content (choice_message ch)))],
     [received_line request;
      read_event cfg request;
      infer_event ctx request;
      write_event cfg request (msg_content (choice_message ch));
      Print ("Warning: Could not save memory: " ++ msg)]).
Proof.
  intros Hget Hctx Hinf Hch Hpost.
  assert (Hw : write_caught
                 (memory_write cfg w request (msg_content (choice_message ch)))
               = true) by now rewrite Hpost.
  now rewrite (handle_chat_completes _ _ _ Hget Hctx Hinf Hch Hw), Hpost.
Qed.

Lemma write_exception_is_logged_as_warning_witness :
  handle_chat sample_cfg write_down_world sam
  = (inr [("reply", JStr "Welcome back!")],
     [received_line sam;
      read_event sample_cfg sam;
      infer_event
        (memories_header ++ nl ++ "Sam likes tea." ++ nl
         ++ "Sam lives in Oslo." ++ nl ++ memories_footer) sam;
      write_event sample_cfg sam (Some "Welcome back!");
      Print "Warning: Could not save memory: Read timed out"]).
Proof.
  eapply (@write_exception_is_logged_as_warning sample_cfg write_down_world sam
            (ok_response two_memories) _ (completion "Welcome back!")
            {| choice_message := {| msg_content := Some "Welcome back!" |} |}
            [] "Read timed out");
    reflexivity.
Defined.

(** X17: when the read call itself raises [e], the class of [e] decides.  A
    [RequestException] goes to the log only: the line
    "Error retrieving memories: " with its text is printed and what is
    raised to the client is the fixed detail, which does not contain it.  Any
    other exception is not caught: it leaves [handle_chat] as it is, nothing
    is printed for it, and the framework answers its plain 500 unless [e] is
    itself an [HTTPException].  In both cases nothing is called after the
    read. *)
Theorem read_exception_by_class cfg w request e :
  memory_read cfg w request = inl e ->
  handle_chat cfg w request
  = (if is_RequestException e
     then (inl (HTTPException 500 "Failed to retrieve memories."),
           [received_line request;
            read_event cfg request;
            Print ("Error retrieving memories: " ++ exn_str e)])
     else (inl e, [received_line request; read_event cfg request]))
  /\ (is_RequestException e = true ->
      respond (result_of (handle_chat cfg w request))
      = json_error "Failed to retrieve memories.")
  /\ (is_RequestException e = false ->
      (forall code detail, e <> HTTPException code detail) ->
      respond (result_of (handle_chat cfg w request))
      = {| status := 500; body := TextBody "Internal Server Error" |}).
Proof.
  intros Hget.
  pose proof (retrieve_memories_read_raises _ _ _ Hget) as Hrun.
  destruct (is_RequestException e) eqn:He;
    rewrite (handle_chat_read_failure _ _ _ Hrun);
    repeat split; try discriminate.
  intros _ Hnot. destruct e; try reflexivity; try discriminate He.
  now destruct (Hnot status_code detail).
Qed.

Lemma read_exception_by_class_witness :
  handle_chat sample_cfg read_crash_world sam
  = (inl header_encode_error, [received_line sam; read_event sample_cfg sam])
  /\ (is_RequestException header_encode_error = true ->
      respond (result_of (handle_chat sample_cfg read_crash_world sam))
      = json_error "Failed to retrieve memories.")
  /\ (is_RequestException header_encode_error = false ->
      (forall code detail, header_encode_error <> HTTPException code detail) ->
      respond (result_of (handle_chat sample_cfg read_crash_world sam))
      = {| status := 500; body := TextBody "Internal Server Error" |}).
Proof.
  apply (@read_exception_by_class sample_cfg read_crash_world sam
           header_encode_error).
  reflexivity.
Defined.

(** X18: when the inference call raises [e], the line
    "Error calling Groq: " with [str(e)] is printed after the call and
    nothing else follows; the client gets the fixed detail whatever [e]
    is. *)
Theorem inference_exception_is_logged_not_leaked
    cfg w request response ctx e :
  memory_read cfg w request = inr response ->
  context_of_response response = inr ctx ->
  inference w ctx request = inl e ->
  handle_chat cfg w request
  = (inl (HTTPException 500 "Failed to get response from LLM."),
     [received_line request;
      read_event cfg request;
      infer_event ctx request;
      Print ("Error calling Groq: " ++ exn_str e)]).
Proof.
  intros Hget Hctx Hinf. unfold handle_chat.
  rewrite (retrieve_memories_returns _ _ _ Hget Hctx). cbn [bind print emit].
  now rewrite (call_groq_raises _ _ _ Hinf).
Qed.

Lemma inference_exception_is_logged_not_leaked_witness :
  handle_chat sample_cfg groq_down_world sam
  = (inl (HTTPException 500 "Failed to get response from LLM."),
     [received_line sam;
      read_event sample_cfg sam;
      infer_event
        (memories_header ++ nl ++ "Sam likes tea." ++ nl
         ++ "Sam lives in Oslo." ++ nl ++ memories_footer) sam;
      Print "Error calling Groq: rate limit"]).
Proof.
  eapply (@inference_exception_is_logged_not_leaked sample_cfg groq_down_world
            sam (ok_response two_memories) _ (OtherException "rate limit"));
    reflexivity.
Defined.
